(** * Intelligent browser automation: repeatability analysis, script
      generation, script library and orchestration

    A shallow embedding of the Python package [intelligent_planner]
    (models.py, repeatability_analyzer.py, script_generator.py,
    orchestrator.py) together with the properties its design document
    states about it.

    Conventions of the embedding.
    - A Python [str] is a [string] holding its UTF-8 bytes.
    - A Python [int] is a [Z]; a list length is a [nat].
    - A Python [float] is a primitive binary64 float, so the products and
      quotients below round exactly as CPython's do.
    - [Optional[T]] is [option T]; [None] is [None].
    - A raised exception is the [Raise] outcome of the [Outcome] type. *)

From Stdlib Require Import ZArith Lia List Ascii String.
From Stdlib Require Import Floats.PrimFloat Numbers.Cyclic.Int63.Uint63.
From stdpp Require Import base decidable option list strings gmap pretty.

Local Open Scope Z_scope.
Local Open Scope string_scope.
Local Open Scope list_scope.

(* Decimal literals such as 0.7 denote the nearest binary64 value, exactly
   as a float literal does in the Python source. *)
Set Warnings "-inexact-float".

(** ** Python primitives used by the sources *)

Module Py.

(** [float(n)] for a list length or a small integer. The conversion is
    exact below 2^53, which covers every length a list can have in
    memory and every score [analyze] can produce. *)
Definition float_of_Z (z : Z) : float := PrimFloat.of_uint63 (Uint63.of_Z z).
Definition float_of_nat (n : nat) : float := float_of_Z (Z.of_nat n).

(** [a / b] on two non-negative ints (true division). *)
Definition truediv (a b : Z) : float :=
  PrimFloat.div (float_of_Z a) (float_of_Z b).

(** [min(a, b)] on floats: the first argument unless the second is
    strictly smaller. *)
Definition min (a b : float) : float :=
  if PrimFloat.ltb b a then b else a.

(** [x or y] where [x] is an optional string: [None] and the empty string
    are falsy. *)
Definition truthy (s : string) : bool :=
  match s with EmptyString => false | String _ _ => true end.

Definition or_str (x : option string) (y : string) : string :=
  match x with
  | Some s => if truthy s then s else y
  | None => y
  end.

(** [str.lower()] restricted to what a substring test against the ASCII
    keywords below can observe: ASCII capitals are folded, every other
    byte is kept. (The only non-ASCII code points whose lower-casing yields
    an ASCII letter are U+212A, giving k, and U+0130, giving i followed by
    a combining dot; no keyword contains k, and none ends in i.) *)
Definition lower_ascii (c : ascii) : ascii :=
  let n := nat_of_ascii c in
  if ((65 <=? n) && (n <=? 90))%nat then ascii_of_nat (n + 32) else c.

Fixpoint lower (s : string) : string :=
  match s with
  | EmptyString => EmptyString
  | String c s' => String (lower_ascii c) (lower s')
  end.

(** [k in s] on strings: [k] occurs in [s] as a contiguous substring. *)
Fixpoint contains (k s : string) : bool :=
  String.prefix k s ||
  match s with
  | EmptyString => false
  | String _ s' => contains k s'
  end.

(** ["sep".join(parts)]. *)
Fixpoint join (sep : string) (parts : list string) : string :=
  match parts with
  | [] => EmptyString
  | [p] => p
  | p :: rest => p +:+ sep +:+ join sep rest
  end.

(** The one-character strings the templates need. *)
Definition nl : string := String (ascii_of_nat 10) EmptyString.
Definition cr : string := String (ascii_of_nat 13) EmptyString.
Definition dq : string := String (ascii_of_nat 34) EmptyString.

End Py.

(** ** models.py *)

Inductive TaskType : Type := REPEATABLE | NON_REPEATABLE | HYBRID.

Module ExecutionStep.
Record t := mk {
  step_number : Z;
  action : string;
  target : option string;
  value : option string;
  timestamp : option string;
  screenshot : option string
}.
End ExecutionStep.

Module Obstacle.
Record t := mk {
  type : string;
  likelihood : float;
  handling_strategy : string;
  detected_at_step : option Z
}.
End Obstacle.

Module DecisionPoint.
Record t := mk {
  step_number : Z;
  question : string;
  decision : string;
  reasoning : string;
  alternatives : list string
}.
End DecisionPoint.

Module ExplorationResult.
Record t := mk {
  success : bool;
  journey_log : list ExecutionStep.t;
  obstacles : list Obstacle.t;
  decisions : list DecisionPoint.t;
  page_structure : option (gmap string string);
  final_result : option string;
  error : option string;
  repeatability_score : option float
}.
End ExplorationResult.

Module RepeatabilityScore.
Record t := mk {
  score : Z;
  is_repeatable : bool;
  confidence : float;
  recommendation : string;
  reasoning : string;
  deterministic_steps : bool;
  predictable_obstacles : bool;
  rule_based_decisions : bool;
  stable_dom : bool
}.
End RepeatabilityScore.

Module GeneratedScript.
Record t := mk {
  code : string;
  language : string;
  dependencies : list string;
  test_status : option string;
  script_path : option string
}.
End GeneratedScript.

Module ExecutionResult.
Record t := mk {
  success : bool;
  method : string;
  result : option string;
  steps : option Z;
  duration : option float;
  cost : option float;
  error : option string;
  script_path : option string;
  actions : option (list string)
}.
End ExecutionResult.

Module TestResult.
Record t := mk {
  success : bool;
  output : option string;
  error : option string;
  duration : option float
}.
End TestResult.

(** ** repeatability_analyzer.py *)

Module RepeatabilityAnalyzer.

Import ExplorationResult.

(** [are_steps_deterministic]: an empty log is not deterministic; neither
    is a log whose number of distinct actions exceeds 0.7 times its
    length (a float product); otherwise one of the four common actions
    must occur. *)
Definition common_patterns : list string :=
  ["navigate"; "click"; "type"; "extract"].

Definition are_steps_deterministic (journey_log : list ExecutionStep.t) : bool :=
  if (length journey_log =? 0)%nat then false
  else
    let action_types := map ExecutionStep.action journey_log in
    let unique_actions := remove_dups action_types in
    if PrimFloat.ltb
         (PrimFloat.mul (Py.float_of_nat (length action_types)) 0.7%float)
         (Py.float_of_nat (length unique_actions))
    then false
    else
      let has_pattern :=
        existsb (fun action => bool_decide (action ∈ action_types))
                common_patterns in
      has_pattern.

(** [are_obstacles_predictable]. *)
Definition unpredictable_types : list string :=
  ["captcha"; "random_redirect"; "bot_detection"].

Definition are_obstacles_predictable (obstacles : list Obstacle.t) : bool :=
  if (length obstacles =? 0)%nat then true
  else
    let predictable :=
      forallb (fun obs => PrimFloat.ltb 0.7%float (Obstacle.likelihood obs))
              obstacles in
    let has_unpredictable :=
      existsb (fun obs => bool_decide (Obstacle.type obs ∈ unpredictable_types))
              obstacles in
    predictable && negb has_unpredictable.

(** [are_decisions_rule_based]. *)
Definition interpretation_keywords : list string :=
  ["relevant"; "best"; "most"; "summarize"; "analyze";
   "determine"; "evaluate"; "assess"; "judge"].

Definition are_decisions_rule_based (decisions : list DecisionPoint.t) : bool :=
  if (length decisions =? 0)%nat then true
  else if (5 <? length decisions)%nat then false
  else
    let requires_interpretation :=
      existsb (fun decision =>
                 existsb (fun keyword =>
                            Py.contains keyword
                              (Py.lower (DecisionPoint.question decision)))
                         interpretation_keywords)
              decisions in
    negb requires_interpretation.

(** [is_dom_stable]. *)
Definition is_dom_stable (exploration : ExplorationResult.t) : bool :=
  if success exploration && (length (journey_log exploration) <? 30)%nat
  then true
  else false.

(** [has_dynamic_content]. *)
Definition has_dynamic_content (exploration : ExplorationResult.t) : bool :=
  let has_many_steps := (20 <? length (journey_log exploration))%nat in
  let has_many_decisions := (3 <? length (decisions exploration))%nat in
  has_many_steps || has_many_decisions.

(** [get_recommendation]. *)
Definition get_recommendation (score : Z) : string :=
  if (7 <=? score)%Z then "SCRIPT"
  else if (3 <=? score)%Z then "HYBRID"
  else "BROWSER_USE".

(** [analyze]: the running [score] and [reasoning_parts] are threaded
    through the five checks in the order of the source. *)
Definition analyze (exploration : ExplorationResult.t) : RepeatabilityScore.t :=
  let score := 0 in
  let reasoning_parts : list string := [] in
  (* 1. deterministic steps *)
  let deterministic := are_steps_deterministic (journey_log exploration) in
  let '(score, reasoning_parts) :=
    if deterministic
    then (score + 3, reasoning_parts ++ ["✓ Steps are deterministic and predictable"])
    else (score, reasoning_parts ++ ["✗ Steps vary or require interpretation"]) in
  (* 2. predictable obstacles *)
  let predictable_obstacles := are_obstacles_predictable (obstacles exploration) in
  let '(score, reasoning_parts) :=
    if predictable_obstacles
    then (score + 2, reasoning_parts ++ ["✓ Obstacles are predictable"])
    else (score, reasoning_parts ++ ["✗ Obstacles are unpredictable"]) in
  (* 3. rule-based decisions *)
  let rule_based := are_decisions_rule_based (decisions exploration) in
  let '(score, reasoning_parts) :=
    if rule_based
    then (score + 2, reasoning_parts ++ ["✓ Decisions follow clear rules"])
    else (score - 3, reasoning_parts ++ ["✗ Decisions require LLM interpretation"]) in
  (* 4. DOM stability *)
  let stable_dom := is_dom_stable exploration in
  let '(score, reasoning_parts) :=
    if stable_dom
    then (score + 2, reasoning_parts ++ ["✓ DOM structure appears stable"])
    else (score, reasoning_parts ++ ["✗ DOM structure may be dynamic"]) in
  (* 5. dynamic content *)
  let has_dynamic := has_dynamic_content exploration in
  let '(score, reasoning_parts) :=
    if has_dynamic
    then (score - 2, reasoning_parts ++ ["✗ Contains dynamic content"])
    else (score, reasoning_parts ++ ["✓ Content appears static"]) in
  let recommendation := get_recommendation score in
  let is_repeatable := (5 <=? score)%Z in
  let confidence := Py.min (Py.truediv (Z.abs score) 10) 1%float in
  RepeatabilityScore.mk
    score is_repeatable confidence recommendation
    (Py.join Py.nl reasoning_parts)
    deterministic predictable_obstacles rule_based stable_dom.

End RepeatabilityAnalyzer.

(** ** hashlib.md5 (RFC 1321), as the orchestrator uses it *)

Module Hashlib.

Definition mask32 (x : Z) : Z := Z.land x 0xffffffff.

Definition leftrotate (x c : Z) : Z :=
  mask32 (Z.lor (Z.shiftl x c) (Z.shiftr (mask32 x) (32 - c))).

Definition lnot32 (x : Z) : Z := Z.lxor (mask32 x) 0xffffffff.

Definition shifts : list Z :=
  [7; 12; 17; 22; 7; 12; 17; 22; 7; 12; 17; 22; 7; 12; 17; 22;
   5;  9; 14; 20; 5;  9; 14; 20; 5;  9; 14; 20; 5;  9; 14; 20;
   4; 11; 16; 23; 4; 11; 16; 23; 4; 11; 16; 23; 4; 11; 16; 23;
   6; 10; 15; 21; 6; 10; 15; 21; 6; 10; 15; 21; 6; 10; 15; 21].

Definition sines : list Z :=
  [0xd76aa478; 0xe8c7b756; 0x242070db; 0xc1bdceee;
   0xf57c0faf; 0x4787c62a; 0xa8304613; 0xfd469501;
   0x698098d8; 0x8b44f7af; 0xffff5bb1; 0x895cd7be;
   0x6b901122; 0xfd987193; 0xa679438e; 0x49b40821;
   0xf61e2562; 0xc040b340; 0x265e5a51; 0xe9b6c7aa;
   0xd62f105d; 0x02441453; 0xd8a1e681; 0xe7d3fbc8;
   0x21e1cde6; 0xc33707d6; 0xf4d50d87; 0x455a14ed;
   0xa9e3e905; 0xfcefa3f8; 0x676f02d9; 0x8d2a4c8a;
   0xfffa3942; 0x8771f681; 0x6d9d6122; 0xfde5380c;
   0xa4beea44; 0x4bdecfa9; 0xf6bb4b60; 0xbebfbc70;
   0x289b7ec6; 0xeaa127fa; 0xd4ef3085; 0x04881d05;
   0xd9d4d039; 0xe6db99e5; 0x1fa27cf8; 0xc4ac5665;
   0xf4292244; 0x432aff97; 0xab9423a7; 0xfc93a039;
   0x655b59c3; 0x8f0ccc92; 0xffeff47d; 0x85845dd1;
   0x6fa87e4f; 0xfe2ce6e0; 0xa3014314; 0x4e0811a1;
   0xf7537e82; 0xbd3af235; 0x2ad7d2bb; 0xeb86d391].

(** Bytes are integers in [0, 256). *)
Fixpoint bytes_of_string (s : string) : list Z :=
  match s with
  | EmptyString => []
  | String c s' => Z.of_nat (nat_of_ascii c) :: bytes_of_string s'
  end.

Definition le_bytes (width : nat) (x : Z) : list Z :=
  map (fun i => Z.land (Z.shiftr x (8 * Z.of_nat i)) 0xff) (seq 0 width).

Fixpoint le_word (bs : list Z) : Z :=
  match bs with
  | [] => 0
  | b :: bs' => Z.lor b (Z.shiftl (le_word bs') 8)
  end.

(** Padding: a 1 bit, zeros up to 56 mod 64, then the bit length on 64
    bits, little endian. *)
Definition pad (msg : list Z) : list Z :=
  let len := Z.of_nat (length msg) in
  let zeros := Z.to_nat ((55 - len) mod 64) in
  msg ++ [0x80] ++ repeat 0 zeros ++ le_bytes 8 (Z.land (8 * len) 0xffffffffffffffff).

Fixpoint chunks (fuel : nat) (size : nat) (l : list Z) : list (list Z) :=
  match fuel, l with
  | O, _ | _, [] => []
  | S fuel', _ => take size l :: chunks fuel' size (drop size l)
  end.

Definition State : Type := Z * Z * Z * Z.

Definition round (M : list Z) (st : State) (i : nat) : State :=
  let '(A, B, C, D) := st in
  let '(F, g) :=
    if (i <? 16)%nat then (Z.lor (Z.land B C) (Z.land (lnot32 B) D), i)
    else if (i <? 32)%nat then (Z.lor (Z.land D B) (Z.land (lnot32 D) C), (5 * i + 1) mod 16)%nat
    else if (i <? 48)%nat then (Z.lxor (Z.lxor B C) D, (3 * i + 5) mod 16)%nat
    else (Z.lxor C (Z.lor B (lnot32 D)), (7 * i) mod 16)%nat in
  let F := mask32 (F + A + nth i sines 0 + nth g M 0) in
  (D, mask32 (B + leftrotate F (nth i shifts 0)), B, C).

Definition compress (st : State) (chunk : list Z) : State :=
  let M := map le_word (chunks 16 4 chunk) in
  let '(a0, b0, c0, d0) := st in
  let '(A, B, C, D) := fold_left (round M) (seq 0 64) st in
  (mask32 (a0 + A), mask32 (b0 + B), mask32 (c0 + C), mask32 (d0 + D)).

Definition digest (msg : list Z) : list Z :=
  let padded := pad msg in
  let '(a, b, c, d) :=
    fold_left compress (chunks (length padded) 64 padded)
              (0x67452301, 0xefcdab89, 0x98badcfe, 0x10325476) in
  le_bytes 4 a ++ le_bytes 4 b ++ le_bytes 4 c ++ le_bytes 4 d.

Definition hex_digits : list ascii :=
  ["0"; "1"; "2"; "3"; "4"; "5"; "6"; "7";
   "8"; "9"; "a"; "b"; "c"; "d"; "e"; "f"]%char.

Definition hex_digit (d : Z) : ascii := nth (Z.to_nat d) hex_digits "0"%char.

Fixpoint hex (bs : list Z) : string :=
  match bs with
  | [] => EmptyString
  | b :: bs' =>
      String (hex_digit (Z.shiftr b 4)) (String (hex_digit (Z.land b 0xf)) (hex bs'))
  end.

(** [hashlib.md5(s.encode()).hexdigest()]. *)
Definition md5_hexdigest (s : string) : string := hex (digest (bytes_of_string s)).

End Hashlib.

(** ** script_generator.py *)

Module ScriptGenerator.

Import ExecutionStep.

(** [for i, x in enumerate(l, start): acc = body(acc, i, x)]. *)
Fixpoint for_enumerate {A S : Type} (body : S -> nat -> A -> S)
         (start : nat) (l : list A) (acc : S) : S :=
  match l with
  | [] => acc
  | x :: l' => for_enumerate body (Datatypes.S start) l' (body acc start x)
  end.

(** What an f-string prints for an optional string. *)
Definition format_optional (x : option string) : string :=
  match x with Some s => s | None => "None" end.

(** [step.value or step.target] inside an f-string. *)
Definition value_or_target (step : ExecutionStep.t) : string :=
  match value step with
  | Some v => if Py.truthy v then v else format_optional (target step)
  | None => format_optional (target step)
  end.

Definition obstacle_handler (handlers : list string) (obstacle : Obstacle.t)
  : list string :=
  if String.eqb (Obstacle.type obstacle) "cookie_banner" then
    handlers ++ ["
            # Handle cookie banner
            try:
                print(" +:+ Py.dq +:+ "🍪 Handling cookie banner..." +:+ Py.dq +:+ ")
                await page.click('button:has-text(" +:+ Py.dq +:+ "Accept" +:+ Py.dq +:+ "), button:has-text(" +:+ Py.dq +:+ "Đồng ý" +:+ Py.dq +:+ "), button:has-text(" +:+ Py.dq +:+ "同意" +:+ Py.dq +:+ ")', timeout=3000)
                await page.wait_for_timeout(500)
            except:
                pass  # Continue if not found
"]
  else if String.eqb (Obstacle.type obstacle) "modal" then
    handlers ++ ["
            # Handle modal
            try:
                print(" +:+ Py.dq +:+ "📋 Closing modal..." +:+ Py.dq +:+ ")
                await page.click('button:has-text(" +:+ Py.dq +:+ "Close" +:+ Py.dq +:+ "), button.close, .modal-close', timeout=2000)
                await page.wait_for_timeout(500)
            except:
                pass
"]
  else if String.eqb (Obstacle.type obstacle) "ad" then
    handlers ++ ["
            # Handle ads
            try:
                print(" +:+ Py.dq +:+ "🚫 Blocking ads..." +:+ Py.dq +:+ ")
                await page.evaluate(" +:+ Py.dq +:+ "document.querySelectorAll('.ad, .advertisement').forEach(el => el.remove())" +:+ Py.dq +:+ ")
            except:
                pass
"]
  else handlers.

Definition _generate_obstacle_handlers (obstacles : list Obstacle.t) : string :=
  match obstacles with
  | [] => "            # No obstacles detected"
  | _ :: _ =>
      let handlers := ["            # Handle common obstacles"] in
      let handlers := fold_left obstacle_handler obstacles handlers in
      Py.join Py.nl handlers
  end.

(** The body of the loop of [_generate_main_steps]: one [if]/[elif] chain
    with no [else] branch. The scroll block is a plain string, not an
    f-string, so its step number stays the text [{i}]. *)
Definition main_step (steps : list string) (i : nat) (step : ExecutionStep.t)
  : list string :=
  if String.eqb (action step) "click" then
    steps ++ ["
            # Step " +:+ pretty i +:+ ": Click
            print(" +:+ Py.dq +:+ "🖱️  Clicking element..." +:+ Py.dq +:+ ")
            await page.click('" +:+ Py.or_str (target step) "button" +:+ "')
            await page.wait_for_timeout(1000)
"]
  else if bool_decide (action step ∈ ["type"; "fill"]) then
    steps ++ ["
            # Step " +:+ pretty i +:+ ": Fill input
            print(" +:+ Py.dq +:+ "⌨️  Typing text..." +:+ Py.dq +:+ ")
            await page.fill('" +:+ Py.or_str (target step) "input" +:+ "', '" +:+ Py.or_str (value step) EmptyString +:+ "')
"]
  else if String.eqb (action step) "navigate" then
    steps ++ ["
            # Step " +:+ pretty i +:+ ": Navigate
            print(" +:+ Py.dq +:+ "🔗 Navigating..." +:+ Py.dq +:+ ")
            await page.goto('" +:+ value_or_target step +:+ "')
            await page.wait_for_load_state('networkidle')
"]
  else if String.eqb (action step) "scroll" then
    steps ++ ["
            # Step {i}: Scroll
            print(" +:+ Py.dq +:+ "📜 Scrolling..." +:+ Py.dq +:+ ")
            await page.evaluate(" +:+ Py.dq +:+ "window.scrollBy(0, 500)" +:+ Py.dq +:+ ")
            await page.wait_for_timeout(500)
"]
  else steps.

Definition main_steps_header : string := "            # Main execution steps".

Definition _generate_main_steps (journey_log : list ExecutionStep.t) : string :=
  match journey_log with
  | [] => "            # No steps recorded"
  | _ :: _ =>
      let steps := [main_steps_header] in
      let steps := for_enumerate main_step 1 journey_log steps in
      Py.join Py.nl steps
  end.

Definition _generate_extract_logic (exploration : ExplorationResult.t) : string :=
  "
            # Extract results
            print(" +:+ Py.dq +:+ "📊 Extracting data..." +:+ Py.dq +:+ ")
            result = {
                'success': True,
                'data': await page.evaluate('document.body.innerText'),
                'url': page.url
            }
".

(** [now] is the text of [datetime.now().isoformat()] at the call. *)
Definition _generate_playwright_script (now : string)
           (exploration : ExplorationResult.t) (url task : string) : string :=
  let obstacle_handlers :=
    _generate_obstacle_handlers (ExplorationResult.obstacles exploration) in
  let main_steps :=
    _generate_main_steps (ExplorationResult.journey_log exploration) in
  let extract_logic := _generate_extract_logic exploration in
  Py.dq +:+ Py.dq +:+ Py.dq +:+ "
Auto-generated script from LLM exploration
Task: " +:+ task +:+ "
URL: " +:+ url +:+ "
Generated: " +:+ now +:+ "
Framework: Playwright
" +:+ Py.dq +:+ Py.dq +:+ Py.dq +:+ "

import asyncio
from playwright.async_api import async_playwright


async def automated_task():
    " +:+ Py.dq +:+ Py.dq +:+ Py.dq +:+ "Execute the automated task" +:+ Py.dq +:+ Py.dq +:+ Py.dq +:+ "
    async with async_playwright() as p:
        browser = await p.chromium.launch(headless=True)
        page = await browser.new_page()
        
        try:
            print(" +:+ Py.dq +:+ "🚀 Starting automation..." +:+ Py.dq +:+ ")
            
            # Step 1: Navigate to URL
            print(f" +:+ Py.dq +:+ "📍 Navigating to {url}" +:+ Py.dq +:+ ")
            await page.goto('" +:+ url +:+ "')
            await page.wait_for_load_state('networkidle')
            
" +:+ obstacle_handlers +:+ "
            
" +:+ main_steps +:+ "
            
" +:+ extract_logic +:+ "
            
            print(" +:+ Py.dq +:+ "✅ Task completed successfully!" +:+ Py.dq +:+ ")
            return result
            
        except Exception as e:
            print(f" +:+ Py.dq +:+ "❌ Error: {e}" +:+ Py.dq +:+ ")
            raise
        finally:
            await browser.close()


if __name__ == " +:+ Py.dq +:+ "__main__" +:+ Py.dq +:+ ":
    result = asyncio.run(automated_task())
    print(f" +:+ Py.dq +:+ "\n📊 Result: {result}" +:+ Py.dq +:+ ")
".

Definition _generate_selenium_script
           (exploration : ExplorationResult.t) (url task : string) : string :=
  Py.dq +:+ Py.dq +:+ Py.dq +:+ "
Selenium script generation not yet implemented
Use Playwright instead
" +:+ Py.dq +:+ Py.dq +:+ Py.dq +:+ "
".

Definition generate_from_exploration (framework now : string)
           (exploration : ExplorationResult.t) (url task : string)
  : GeneratedScript.t :=
  let '(code, dependencies) :=
    if String.eqb framework "playwright"
    then (_generate_playwright_script now exploration url task, ["playwright"])
    else (_generate_selenium_script exploration url task, ["selenium"]) in
  GeneratedScript.mk code "python" dependencies None None.

End ScriptGenerator.

(** ** The operating system as the orchestrator sees it *)

Module Os.

(** [os.path.join(a, b)] (posixpath). *)
Fixpoint endswith_sep (s : string) : bool :=
  match s with
  | EmptyString => false
  | String c EmptyString => Ascii.eqb c "/"
  | String _ s' => endswith_sep s'
  end.

Definition path_join (a b : string) : string :=
  if String.prefix "/" b then b
  else if negb (Py.truthy a) || endswith_sep a then a +:+ b
  else a +:+ "/" +:+ b.

(** Files are opened in text mode with the default [newline=None]. On
    POSIX, writing stores the text unchanged, and reading enables universal
    newlines: every CR LF and every lone CR comes back as LF. *)
Fixpoint universal_newlines (s : string) : string :=
  match s with
  | EmptyString => EmptyString
  | String c s' =>
      if Ascii.eqb c (ascii_of_nat 13) then
        match s' with
        | String c' s'' =>
            if Ascii.eqb c' (ascii_of_nat 10)
            then String (ascii_of_nat 10) (universal_newlines s'')
            else String (ascii_of_nat 10) (universal_newlines s')
        | EmptyString => String (ascii_of_nat 10) EmptyString
        end
      else String c (universal_newlines s')
  end.

(** The file system: the stored text of every regular file, by path.
    Directories always exist and writes always succeed (no full disk, no
    permission error); the child interpreter's own writes are not tracked. *)
Abbreviation Files := (gmap string string).

(** [with open(path, 'w') as f: f.write(data)]. *)
Definition write_text (files : Files) (path data : string) : Files :=
  <[path := data]> files.

(** [with open(path, 'r') as f: return f.read()]. *)
Definition read_text (files : Files) (path : string) : option string :=
  universal_newlines <$> files !! path.

(** [os.path.exists(path)]. *)
Definition path_exists (files : Files) (path : string) : bool :=
  bool_decide (is_Some (files !! path)).

End Os.

(** ** orchestrator.py: the script library *)

Module ScriptLibrary.

Record t := mk { library_path : string }.

(** [__init__]'s default. *)
Definition default : t := mk "generated_scripts".

Definition _generate_id (url task : string) : string :=
  let combined := url +:+ ":" +:+ task in
  String.substring 0 12 (Hashlib.md5_hexdigest combined).

Definition script_path_of (self : t) (url task : string) : string :=
  let script_id := _generate_id url task in
  Os.path_join (library_path self) (script_id +:+ ".py").

Definition find (self : t) (files : Os.Files) (url task : string) : option string :=
  let script_path := script_path_of self url task in
  if Os.path_exists files script_path
  then Os.read_text files script_path
  else None.

(** [save] returns the path and leaves the file system updated. *)
Definition save (self : t) (files : Os.Files) (url task code : string)
  : string * Os.Files :=
  let script_path := script_path_of self url task in
  let files := Os.write_text files script_path code in
  (script_path, files).

(** The file system after a sequence of [save] calls. *)
Definition save_all (self : t) (files : Os.Files)
           (calls : list (string * string * string)) : Os.Files :=
  fold_left (fun files '(url, task, code) => snd (save self files url task code))
            calls files.

End ScriptLibrary.

(** ** orchestrator.py: the orchestrator *)

(** The outcome of a call that may raise. *)
Inductive Outcome (A : Type) : Type :=
| Return (a : A)
| Raise (message : string).
Arguments Return {A} a.
Arguments Raise {A} message.

Module CompletedProcess.
Record t := mk { returncode : Z; stdout : string; stderr : string }.
End CompletedProcess.

(** What [execute] hands back to its caller. The source annotates the
    return type as [ExecutionResult], but Python returns whatever value the
    [return] statement evaluates, so a [str] is a possible value too. *)
Inductive PyValue : Type :=
| PyStr (s : string)
| PyExecutionResult (r : ExecutionResult.t).

Module IntelligentBrowserAutomation.

(** The mutable world of one orchestrator: the files on disk, and how many
    UUIDs have been drawn so far. *)
Record World := mkWorld { files : Os.Files; uuids_drawn : nat }.

(** The collaborators outside the package: the exploration engine, the
    adaptive executor, the Python interpreter run as a child process on a
    file, the UUID generator and the clock. *)
Record Env := mkEnv {
  explore_task : string -> string -> Outcome ExplorationResult.t;
  execute_non_repeatable :
    string -> string -> option ExplorationResult.t -> Outcome ExecutionResult.t;
  subprocess_run_python : Os.Files -> string -> Outcome CompletedProcess.t;
  uuid4_hex : nat -> string;
  datetime_now_isoformat : string
}.

Section Orchestrator.

Variable env : Env.
Variable script_library : ScriptLibrary.t.

(** [uuid.uuid4().hex[:8]]. *)
Definition fresh_hex8 (w : World) : string * World :=
  (String.substring 0 8 (uuid4_hex env (uuids_drawn w)),
   mkWorld (files w) (S (uuids_drawn w))).

(** [_execute_script]: write the code to a temporary file, run the
    interpreter on it, raise on a non-zero exit status, else return the
    captured standard output. [subprocess.run] itself raises on a
    timeout. *)
Definition _execute_script (w : World) (script_code : string)
  : Outcome string * World :=
  let '(hex8, w) := fresh_hex8 w in
  let temp_path := "/tmp/script_" +:+ hex8 +:+ ".py" in
  let w := mkWorld (Os.write_text (files w) temp_path script_code) (uuids_drawn w) in
  match subprocess_run_python env (files w) temp_path with
  | Raise e => (Raise e, w)
  | Return result =>
      if negb (CompletedProcess.returncode result =? 0)%Z
      then (Raise ("Script failed: " +:+ CompletedProcess.stderr result), w)
      else (Return (CompletedProcess.stdout result), w)
  end.

(** [_execute_with_browser_use]. *)
Definition _execute_with_browser_use (w : World) (url task : string)
           (exploration : option ExplorationResult.t)
  : Outcome ExecutionResult.t * World :=
  match execute_non_repeatable env url task exploration with
  | Raise e => (Raise e, w)
  | Return result => (Return result, w)
  end.

(** [_execute_with_script]. *)
Definition _execute_with_script (w : World)
           (exploration : ExplorationResult.t) (url task : string)
  : Outcome ExecutionResult.t * World :=
  let script :=
    ScriptGenerator.generate_from_exploration
      "playwright" (datetime_now_isoformat env) exploration url task in
  let '(hex8, w) := fresh_hex8 w in
  let script_path := "generated_scripts/test_" +:+ hex8 +:+ ".py" in
  let w := mkWorld (Os.write_text (files w) script_path (GeneratedScript.code script))
                   (uuids_drawn w) in
  (* try *)
  match _execute_script w (GeneratedScript.code script) with
  | (Return result, w) =>
      let '(saved_path, files') :=
        ScriptLibrary.save script_library (files w) url task
                           (GeneratedScript.code script) in
      let w := mkWorld files' (uuids_drawn w) in
      (Return (ExecutionResult.mk true "SCRIPT" (Some result)
                 None None None None (Some saved_path) None), w)
  (* except Exception *)
  | (Raise e, w) => _execute_with_browser_use w url task (Some exploration)
  end.

(** [_execute_hybrid]. *)
Definition _execute_hybrid (w : World)
           (exploration : ExplorationResult.t) (url task : string)
  : Outcome ExecutionResult.t * World :=
  match _execute_with_script w exploration url task with
  | (Return r, w) => (Return r, w)
  | (Raise e, w) => _execute_with_browser_use w url task (Some exploration)
  end.

Definition lift (r : Outcome ExecutionResult.t * World) : Outcome PyValue * World :=
  match r with
  | (Return x, w) => (Return (PyExecutionResult x), w)
  | (Raise e, w) => (Raise e, w)
  end.

(** Everything in [execute] after the library lookup. *)
Definition explore_and_route (w : World) (url task : string)
  : Outcome PyValue * World :=
  (* Phase 1 *)
  match explore_task env url task with
  | Raise e => (Raise e, w)
  | Return exploration =>
      if negb (ExplorationResult.success exploration) then
        (Return (PyExecutionResult
                   (ExecutionResult.mk false "EXPLORATION_FAILED" None
                      None None None
                      (ExplorationResult.error exploration) None None)), w)
      else
        (* Phase 2 *)
        let analysis := RepeatabilityAnalyzer.analyze exploration in
        (* Phase 3 *)
        if String.eqb (RepeatabilityScore.recommendation analysis) "SCRIPT" then
          lift (_execute_with_script w exploration url task)
        else if String.eqb (RepeatabilityScore.recommendation analysis) "BROWSER_USE" then
          lift (_execute_with_browser_use w url task (Some exploration))
        else
          lift (_execute_hybrid w exploration url task)
  end.

(** [execute]. *)
Definition execute (w : World) (url task : string) : Outcome PyValue * World :=
  let existing_script := ScriptLibrary.find script_library (files w) url task in
  match existing_script with
  | Some existing_script =>
      if Py.truthy existing_script then
        (* try *)
        match _execute_script w existing_script with
        | (Return result, w) => (Return (PyStr result), w)
        (* except Exception: fall back to exploration *)
        | (Raise e, w) => explore_and_route w url task
        end
      else explore_and_route w url task
  | None => explore_and_route w url task
  end.

End Orchestrator.

End IntelligentBrowserAutomation.

(** ** Concrete traces and worlds used by the examples below *)

Module Examples.

Definition step_of (i : Z) (a : string) : ExecutionStep.t :=
  ExecutionStep.mk i a None None None None.

(** A successful trace with the given actions, no obstacle, no decision. *)
Definition clean_trace (actions : list string) : ExplorationResult.t :=
  ExplorationResult.mk true (imap (fun i a => step_of (Z.of_nat (S i)) a) actions)
                       [] [] None None None None.

Definition four_kinds : list string := ["navigate"; "click"; "type"; "extract"].

(** navigate, click, type, extract: four steps, four kinds. *)
Definition trace_four : ExplorationResult.t := clean_trace four_kinds.

(** The same four kinds over six steps. *)
Definition trace_six : ExplorationResult.t :=
  clean_trace ["navigate"; "click"; "type"; "click"; "type"; "extract"].

(** The same four kinds over twenty-one steps. *)
Definition trace_twenty_one : ExplorationResult.t :=
  clean_trace (four_kinds ++ repeat "click" 17).

Definition plain_decision (i : Z) : DecisionPoint.t :=
  DecisionPoint.mk i "Fill form with provided data" "fill" "data entry" [].

Definition with_decisions (n : nat) : ExplorationResult.t :=
  ExplorationResult.mk true (ExplorationResult.journey_log trace_six) []
                       (map (fun i => plain_decision (Z.of_nat i)) (seq 1 n))
                       None None None None.

(** No step, a captcha, six decisions, failure: every signal at its worst. *)
Definition worst_trace : ExplorationResult.t :=
  ExplorationResult.mk false []
    [Obstacle.mk "captcha" 0.5%float "manual" None]
    (map (fun i => plain_decision (Z.of_nat i)) (seq 1 6))
    None None (Some "blocked") None.

Definition empty_trace : ExplorationResult.t :=
  ExplorationResult.mk true [] [] [] None None None None.

(** A trace whose second step has an action the generator does not know. *)
Definition trace_click_extract_scroll : ExplorationResult.t :=
  clean_trace ["click"; "extract"; "scroll"].

Definition trace_extract_only : ExplorationResult.t := clean_trace ["extract"].

Definition trace_click_extract : ExplorationResult.t :=
  clean_trace ["click"; "extract"].

Definition trace_click : ExplorationResult.t := clean_trace ["click"].

(** Library calls. *)
Definition example_url : string := "https://example.com".
Definition example_task : string := "Fill out contact form".
Definition other_call : string * string * string :=
  ("https://news.ycombinator.com", "Find the title of the top post",
   "print('top post')").

(** A one-line program, with a POSIX and with a DOS line ending. *)
Definition program_lf : string := "print('done')" +:+ Py.nl.
Definition program_crlf : string := "print('done')" +:+ Py.cr +:+ Py.nl.

(** Collaborators for the orchestrator examples: an interpreter that runs
    any existing file successfully and prints one line, an exploration
    engine that reports a failure, an adaptive executor that fails. *)
Definition interpreter_ok (files : Os.Files) (path : string)
  : Outcome CompletedProcess.t :=
  match files !! path with
  | Some _ => Return (CompletedProcess.mk 0 ("done" +:+ Py.nl) EmptyString)
  | None => Raise "can't open file"
  end.

Definition failed_exploration : ExplorationResult.t :=
  ExplorationResult.mk false [] [] [] None None (Some "browser crashed") None.

Definition example_env : IntelligentBrowserAutomation.Env :=
  IntelligentBrowserAutomation.mkEnv
    (fun _ _ => Return failed_exploration)
    (fun _ _ _ => Return (ExecutionResult.mk false "BROWSER_USE" None None None
                            None (Some "agent failed") None None))
    interpreter_ok
    (fun n => "0123456789abcdef0123456789abcdef")
    "2024-01-01T00:00:00".

(** A world with an empty disk, and one whose library holds a script for
    the example task. *)
Definition empty_world : IntelligentBrowserAutomation.World :=
  IntelligentBrowserAutomation.mkWorld ∅ 0.

Definition cached_world : IntelligentBrowserAutomation.World :=
  IntelligentBrowserAutomation.mkWorld
    (snd (ScriptLibrary.save ScriptLibrary.default ∅ example_url example_task
                             program_lf))
    0.

End Examples.

(** ** Vocabulary of the statements *)

Section Vocabulary.

Import ExplorationResult RepeatabilityScore RepeatabilityAnalyzer ScriptGenerator.

(** The contribution of one signal to the score. *)
Definition contribution (signal : bool) (yes no : Z) : Z :=
  if signal then yes else no.

(** The four contributions that do not come from the decisions check. *)
Definition other_contributions (e : ExplorationResult.t) : Z :=
  contribution (are_steps_deterministic (journey_log e)) 3 0
  + contribution (are_obstacles_predictable (obstacles e)) 2 0
  + contribution (is_dom_stable e) 2 0
  + contribution (has_dynamic_content e) (-2) 0.

(** On those fifteen scores the quotient [abs(score) / 10] is at most the
    float 0.9 and never above 1.0. *)
Definition confidence_in_bounds (s : Z) : bool :=
  PrimFloat.leb (Py.truediv (Z.abs s) 10) 0.9%float
  && negb (PrimFloat.ltb 1%float (Py.truediv (Z.abs s) 10)).

(** With four distinct actions, the float test [4 > n * 0.7] of the source
    holds exactly for the logs of fewer than six steps (checked for every
    length below 30). *)
Definition variety_test_agrees (n : nat) : bool :=
  Bool.eqb (PrimFloat.ltb (PrimFloat.mul (Py.float_of_nat n) 0.7%float)
                          (Py.float_of_nat 4))
           (n <? 6)%nat.

(** [k] occurs in [s]: some text before, [k], some text after. *)
Definition occurs_in (k s : string) : Prop :=
  exists p q : string, s = p +:+ k +:+ q.

(** The action kinds [_generate_main_steps] has a branch for. *)
Definition recognized (a : string) : bool :=
  bool_decide (a ∈ ["click"; "type"; "fill"; "navigate"; "scroll"]).

(** The blocks the loop emits for a log whose first step has number [i]. *)
Definition blocks_from (i : nat) (log : list ExecutionStep.t) : list string :=
  for_enumerate main_step i log [].

End Vocabulary.

(** ** The browser_use library as the package sees it *)

Module Agent.

(** What the package reads from the history an agent run returns. Each
    field stands for the method of the same name, at the type the package
    uses it at; the dictionaries of [model_actions] map strings to
    strings. *)
Record History := mkHistory {
  model_actions : list (gmap string string);
  action_names : list string;
  is_successful : bool;
  final_result : option string;
  number_of_steps : Z;
  total_duration_seconds : float
}.

(** [Agent(task=..., ...)] followed by [agent.run(...)]: building the agent
    may raise; when it does not, running it returns a history or raises.
    The clock gives the text of the [k]-th [datetime.now().isoformat()]. *)
Record Env := mkEnv {
  create_and_run : string -> Outcome (Outcome History);
  now_isoformat : nat -> string
}.

End Agent.

(** ** llm_explorer.py *)

Module LLMExplorer.

(** [max(a, b)] on floats: the first argument unless the second is strictly
    greater. *)
Definition py_max (a b : float) : float :=
  if PrimFloat.ltb a b then b else a.

(** A value of the [self.llm] dictionary: a string or an opaque client
    object (or [None]). *)
Inductive Component : Type :=
| CStr (s : string)
| CObject (class_name : string)
| CNone.

Definition format_component (c : Component) : string :=
  match c with
  | CStr s => s
  | CObject class_name => "<" +:+ class_name +:+ " object>"
  | CNone => "None"
  end.

(** [c == s] for a component and a string. *)
Definition component_eq_str (c : Component) (s : string) : bool :=
  match c with
  | CStr x => String.eqb x s
  | CObject _ | CNone => false
  end.

Record t := mk {
  llm_provider : string;
  llm : gmap string Component
}.

(** [_initialize_llm]. The imports and the constructors of the clients
    are taken to succeed; the dictionary is the one the source builds. *)
Definition _initialize_llm (provider : string) : Outcome (gmap string Component) :=
  if String.eqb provider "browser-use" then
    Return (<["type" := CStr "browser-use"]>
            (<["browser" := CObject "Browser"]>
             (<["llm" := CObject "ChatBrowserUse"]> ∅)))
  else if String.eqb provider "gpt4" then
    Return (<["type" := CStr "gpt4"]> (<["client" := CObject "AsyncOpenAI"]> ∅))
  else if String.eqb provider "gemini" then
    Return (<["type" := CStr "gemini"]> (<["client" := CObject "genai"]> ∅))
  else if String.eqb provider "grok" then
    Return (<["type" := CStr "grok"]> (<["client" := CNone]> ∅))
  else Raise ("Unsupported LLM provider: " +:+ provider).

(** [__init__]. *)
Definition __init__ (llm_provider : string) : Outcome t :=
  match _initialize_llm llm_provider with
  | Return llm => Return (mk llm_provider llm)
  | Raise e => Raise e
  end.

(** [_calculate_repeatability]. *)
Definition _calculate_repeatability (journey_log : list ExecutionStep.t)
           (obstacles : list Obstacle.t) (decisions : list DecisionPoint.t)
  : float :=
  let score := 0.5%float in
  let score :=
    if (20 <? length journey_log)%nat then PrimFloat.sub score 0.1%float
    else if (length journey_log <? 10)%nat then PrimFloat.add score 0.1%float
    else score in
  let score :=
    if (0 <? length obstacles)%nat
       && forallb (fun o => PrimFloat.ltb 0.7%float (Obstacle.likelihood o))
                  obstacles
    then PrimFloat.add score 0.2%float
    else score in
  let score :=
    if (5 <? length decisions)%nat then PrimFloat.sub score 0.2%float
    else score in
  py_max 0%float (Py.min 1%float score).

(** [str.lower()] as far as a search for an ASCII text can tell: ASCII
    capitals are folded, the Kelvin sign (U+212A, bytes E2 84 AA) becomes k,
    the dotted capital I (U+0130, bytes C4 B0) becomes i followed by a
    combining dot (bytes CC 87), and every other byte is kept. No other
    code point lower-cases to text holding an ASCII character. *)
Fixpoint lower_for_search (s : string) : string :=
  match s with
  | EmptyString => EmptyString
  | String a s1 =>
      match s1 with
      | EmptyString => String (Py.lower_ascii a) EmptyString
      | String b s2 =>
          if Ascii.eqb a (ascii_of_nat 196) && Ascii.eqb b (ascii_of_nat 176)
          then String "i" (String (ascii_of_nat 204)
                             (String (ascii_of_nat 135) (lower_for_search s2)))
          else
            match s2 with
            | String c s3 =>
                if Ascii.eqb a (ascii_of_nat 226)
                   && Ascii.eqb b (ascii_of_nat 132)
                   && Ascii.eqb c (ascii_of_nat 170)
                then String "k" (lower_for_search s3)
                else String (Py.lower_ascii a) (lower_for_search s1)
            | EmptyString => String (Py.lower_ascii a) (lower_for_search s1)
            end
      end
  end.

(** [d.get(key, default)] and [d.get(key)] on a dictionary of strings. *)
Definition dict_get_default (d : gmap string string) (key default : string)
  : string :=
  match d !! key with Some v => v | None => default end.

(** The prompt handed to the agent. *)
Definition exploration_prompt (url task : string) : string :=
  "
        Complete this task: " +:+ task +:+ "
        
        Starting URL: " +:+ url +:+ "
        
        IMPORTANT: As you work, document:
        1. Every action you take (clicks, typing, navigation, scrolling)
        2. Any obstacles encountered (modals, ads, redirects, cookie banners)
        3. Decision points (why you chose specific actions)
        4. Page structure patterns you notice
        
        Complete the task fully and provide detailed results.
        ".

(** The [try] block of [_explore_with_browser_use], once the run has
    returned its history. *)
Definition result_of_history (env : Agent.Env) (history : Agent.History)
  : ExplorationResult.t :=
  let journey_log :=
    imap (fun i action =>
            ExecutionStep.mk
              (Z.of_nat i + 1)
              (dict_get_default action "action" "unknown")
              (action !! "target")
              (action !! "value")
              (Some (Agent.now_isoformat env i))
              None)
         (Agent.model_actions history) in
  let action_names := Agent.action_names history in
  let obstacles :=
    if existsb (fun a => Py.contains "click" (lower_for_search a)
                         && Py.contains "accept" (lower_for_search a))
               action_names
    then [Obstacle.mk "cookie_banner" 0.9%float "click_accept" (Some 1)]
    else [] in
  let decisions : list DecisionPoint.t := [] in
  let repeatability_score :=
    _calculate_repeatability journey_log obstacles decisions in
  ExplorationResult.mk
    (Agent.is_successful history) journey_log obstacles decisions None
    (Some (ScriptGenerator.format_optional (Agent.final_result history)))
    None (Some repeatability_score).

(** The [except] block: what is returned when the run raises. *)
Definition result_of_exception (e : string) : ExplorationResult.t :=
  ExplorationResult.mk false [] [] [] None None (Some e) None.

(** [_explore_with_browser_use]. The agent is built outside the [try]
    block, from [self.llm['browser']] and [self.llm['llm']]: a missing key
    raises [KeyError], whose text is the quoted key. *)
Definition _explore_with_browser_use (self : t) (env : Agent.Env)
           (url task : string) : Outcome ExplorationResult.t :=
  let exploration_task := exploration_prompt url task in
  match llm self !! "browser" with
  | None => Raise "'browser'"
  | Some _ =>
      match llm self !! "llm" with
      | None => Raise "'llm'"
      | Some _ =>
          match Agent.create_and_run env exploration_task with
          | Raise e => Raise e
          | Return (Return history) => Return (result_of_history env history)
          | Return (Raise e) => Return (result_of_exception e)
          end
      end
  end.

(** [_explore_with_gpt4] and [_explore_with_gemini]. *)
Definition _explore_with_gpt4 (self : t) (env : Agent.Env) (url task : string)
  : Outcome ExplorationResult.t :=
  _explore_with_browser_use self env url task.

Definition _explore_with_gemini (self : t) (env : Agent.Env) (url task : string)
  : Outcome ExplorationResult.t :=
  _explore_with_browser_use self env url task.

(** [explore_task]. *)
Definition explore_task (self : t) (env : Agent.Env) (url task : string)
  : Outcome ExplorationResult.t :=
  match llm self !! "type" with
  | None => Raise "'type'"
  | Some ty =>
      if component_eq_str ty "browser-use" then
        _explore_with_browser_use self env url task
      else if component_eq_str ty "gpt4" then
        _explore_with_gpt4 self env url task
      else if component_eq_str ty "gemini" then
        _explore_with_gemini self env url task
      else Raise ("Explorer for " +:+ format_component ty +:+ " not implemented")
  end.

End LLMExplorer.

(** ** browser_use_executor.py *)

Module BrowserUseExecutor.

(** [_enhance_task_with_exploration]. *)
Definition _enhance_task_with_exploration (task : string)
           (exploration : ExplorationResult.t) : string :=
  let obstacles_text :=
    match ExplorationResult.obstacles exploration with
    | [] => EmptyString
    | _ :: _ =>
        let obstacle_types :=
          map Obstacle.type (ExplorationResult.obstacles exploration) in
        "

Expected obstacles: " +:+ Py.join ", " obstacle_types
    end in
  let hints_text :=
    if (0 <? length (ExplorationResult.journey_log exploration))%nat
    then "

General approach: Complete in ~" +:+ pretty (length (ExplorationResult.journey_log exploration)) +:+ " steps"
    else EmptyString in
  task +:+ obstacles_text +:+ hints_text +:+ "

Work carefully and handle any obstacles you encounter.".

(** The task text the agent is given. *)
Definition enhanced_task_of (task : string)
           (exploration : option ExplorationResult.t) : string :=
  match exploration with
  | Some e =>
      if ExplorationResult.success e
      then _enhance_task_with_exploration task e
      else task
  | None => task
  end.

(** [execute_non_repeatable]. The browser and the agent are built outside
    the [try] block. *)
Definition execute_non_repeatable (env : Agent.Env) (url task : string)
           (exploration : option ExplorationResult.t)
  : Outcome ExecutionResult.t :=
  let enhanced_task := enhanced_task_of task exploration in
  match Agent.create_and_run env enhanced_task with
  | Raise e => Raise e
  | Return (Return history) =>
      Return (ExecutionResult.mk
                (Agent.is_successful history) "BROWSER_USE"
                (Agent.final_result history)
                (Some (Agent.number_of_steps history))
                (Some (Agent.total_duration_seconds history))
                None None None
                (Some (Agent.action_names history)))
  | Return (Raise e) =>
      Return (ExecutionResult.mk false "BROWSER_USE" None None None None
                                 (Some e) None None)
  end.

End BrowserUseExecutor.

(** ** orchestrator.py: the orchestrator with its own collaborators *)

Module Wiring.

(** The environment [IntelligentBrowserAutomation.__init__] sets up: the
    explorer and the executor of the package, over the agents of the
    library. *)
Definition env_of (explorer : LLMExplorer.t)
           (explorer_agents executor_agents : Agent.Env)
           (subprocess_run_python : Os.Files -> string -> Outcome CompletedProcess.t)
           (uuid4_hex : nat -> string) (datetime_now_isoformat : string)
  : IntelligentBrowserAutomation.Env :=
  IntelligentBrowserAutomation.mkEnv
    (LLMExplorer.explore_task explorer explorer_agents)
    (BrowserUseExecutor.execute_non_repeatable executor_agents)
    subprocess_run_python uuid4_hex datetime_now_isoformat.

End Wiring.

(** ** Python text as a sequence of code points *)

Module Text.

(** A [str] of careerviet_enhanced.py: its code points, in order. The
    methods below work code point by code point, as Python's do. *)
Definition t : Type := list N.

(** An ASCII literal of the source. *)
Definition of_ascii (s : string) : t :=
  map N_of_ascii (list_ascii_of_string s).

(** Truth value of a [str]: non-empty. *)
Definition truthy (s : t) : bool :=
  match s with [] => false | _ :: _ => true end.

(** The code points [str.strip()] removes: U+0009..U+000D, U+001C..U+0020,
    U+0085, U+00A0, U+1680, U+2000..U+200A, U+2028, U+2029, U+202F, U+205F
    and U+3000. *)
Definition isspace (c : N) : bool :=
  (((9 <=? c) && (c <=? 13)) || ((28 <=? c) && (c <=? 32))
   || (c =? 133) || (c =? 160) || (c =? 5760)
   || ((8192 <=? c) && (c <=? 8202))
   || (c =? 8232) || (c =? 8233) || (c =? 8239) || (c =? 8287)
   || (c =? 12288))%N.

Fixpoint lstrip (s : t) : t :=
  match s with
  | [] => []
  | c :: rest => if isspace c then lstrip rest else s
  end.

Definition rstrip (s : t) : t := rev (lstrip (rev s)).

(** [s.strip()]. *)
Definition strip (s : t) : t := rstrip (lstrip s).

(** [s.startswith(c)] and [c in s] for a one-character [c]. *)
Definition startswith_char (c : N) (s : t) : bool :=
  match s with
  | [] => false
  | x :: _ => (x =? c)%N
  end.

Definition contains_char (c : N) (s : t) : bool :=
  existsb (fun x => (x =? c)%N) s.

(** [s.replace(a, b)] for one-character [a] and [b]. *)
Definition replace_char (a b : N) (s : t) : t :=
  map (fun x => if (x =? a)%N then b else x) s.

(** [s.split(sep)] for a one-character [sep]: never an empty list. *)
Fixpoint split (sep : N) (s : t) : list t :=
  match s with
  | [] => [[]]
  | c :: rest =>
      if (c =? sep)%N then [] :: split sep rest
      else match split sep rest with
           | piece :: pieces => (c :: piece) :: pieces
           | [] => [[c]]
           end
  end.

(** [s.split(sep, 1)]: cut at the first [sep], if there is one. *)
Fixpoint split_once (sep : N) (s : t) : list t :=
  match s with
  | [] => [[]]
  | c :: rest =>
      if (c =? sep)%N then [[]; rest]
      else match split_once sep rest with
           | piece :: pieces => (c :: piece) :: pieces
           | [] => [[c]]
           end
  end.

(** The lines a text file yields when iterated: each with its line feed,
    the last one possibly without. *)
Fixpoint lines (s : t) : list t :=
  match s with
  | [] => []
  | c :: rest =>
      if (c =? 10)%N then [c] :: lines rest
      else match lines rest with
           | line :: more => (c :: line) :: more
           | [] => [[c]]
           end
  end.

(** [key in api_keys]. *)
Definition mem (key : t) (api_keys : list t) : bool :=
  bool_decide (key ∈ api_keys).

End Text.

(** ** careerviet_enhanced.py *)

Module CareerViet.

(** What [load_api_keys] reads: the environment ([os.getenv]) and the keys
    file, which is absent ([None]), or fails to open or to decode, or
    gives its text (as text mode hands it over, line ends translated). *)
Record Host := mkHost {
  getenv : string -> option Text.t;
  keys_file : option (Outcome Text.t)
}.

(** The loop over the pieces of the API_KEYS variable. *)
Definition keys_of_variable (api_keys : list Text.t) (api_keys_env : Text.t)
  : list Text.t :=
  fold_left
    (fun api_keys key =>
       let key := Text.strip key in
       if Text.truthy key && negb (Text.startswith_char 35 key)
       then api_keys ++ [key] else api_keys)
    (Text.split 10 (Text.replace_char 44 10 api_keys_env))
    api_keys.

Definition placeholders : list Text.t :=
  [Text.of_ascii "your-primary-key-here";
   Text.of_ascii "your-backup-key-here";
   Text.of_ascii "your-third-key-here"].

(** The loop over the lines of the keys file. The index 1 is in range
    because the line holds the separator. *)
Definition keys_of_file (api_keys : list Text.t) (text : Text.t)
  : list Text.t :=
  fold_left
    (fun api_keys line =>
       let line := Text.strip line in
       if Text.truthy line && negb (Text.startswith_char 35 line) then
         if Text.contains_char 61 line then
           match Text.split_once 61 line with
           | _ :: value :: _ =>
               let key := Text.strip value in
               if Text.truthy key && negb (Text.mem key placeholders) then
                 if negb (Text.mem key api_keys) then api_keys ++ [key]
                 else api_keys
               else api_keys
           | _ => api_keys
           end
         else api_keys
       else api_keys)
    (Text.lines text)
    api_keys.

(** The loop over GOOGLE_API_KEY_1 .. GOOGLE_API_KEY_9 ([range(1, 10)]). *)
Definition keys_of_numbered_variables (host : Host) (api_keys : list Text.t)
  : list Text.t :=
  fold_left
    (fun api_keys i =>
       match getenv host ("GOOGLE_API_KEY_" +:+ pretty i) with
       | Some env_key =>
           if Text.truthy env_key && negb (Text.mem env_key api_keys)
           then api_keys ++ [env_key] else api_keys
       | None => api_keys
       end)
    (seq 1 9)
    api_keys.

Definition no_keys_message : string :=
  "No API keys found! Please either:" +:+ Py.nl
  +:+ "1. Set GOOGLE_API_KEY environment variable, or" +:+ Py.nl
  +:+ "2. Add keys to tasks/api_keys.txt, or" +:+ Py.nl
  +:+ "3. Set GOOGLE_API_KEY_1, GOOGLE_API_KEY_2, etc.".

(** [load_api_keys]. *)
Definition load_api_keys (host : Host) : Outcome (list Text.t) :=
  let api_keys : list Text.t := [] in
  let api_keys :=
    match getenv host "API_KEYS" with
    | Some api_keys_env =>
        if Text.truthy api_keys_env
        then keys_of_variable api_keys api_keys_env
        else api_keys
    | None => api_keys
    end in
  match
    match keys_file host with
    | None => Return api_keys
    | Some (Raise e) => Raise e
    | Some (Return text) => Return (keys_of_file api_keys text)
    end
  with
  | Raise e => Raise e
  | Return api_keys =>
      let api_keys := keys_of_numbered_variables host api_keys in
      let api_keys :=
        match getenv host "GOOGLE_API_KEY" with
        | Some single_key =>
            if Text.truthy single_key && negb (Text.mem single_key api_keys)
            then single_key :: api_keys else api_keys
        | None => api_keys
        end in
      match api_keys with
      | [] => Raise no_keys_message
      | _ :: _ => Return api_keys
      end
  end.

(** [run_with_retry]: the loop over the keys, numbered from 1. [attempt i
    key] is the body of the [try] block for the [i]-th key: it returns the
    text of the final result, or raises. [remaining] is the part of the
    list not yet tried and [total] is [len(api_keys)]. The loop hands the
    keys to the attempt and does nothing else with them, so it is written
    for any representation [K] of a key. *)
Fixpoint retry_loop {K : Type} (attempt : nat -> K -> Outcome string)
         (total i : nat) (remaining : list K) : Outcome (bool * string) :=
  match remaining with
  | [] => Return (false, "All API keys failed")
  | api_key :: rest =>
      match attempt i api_key with
      | Return final_result => Return (true, final_result)
      | Raise e =>
          if (i =? total)%nat then Raise e
          else retry_loop attempt total (S i) rest
      end
  end.

Definition run_with_retry {K : Type} (attempt : nat -> K -> Outcome string)
           (api_keys : list K) : Outcome (bool * string) :=
  retry_loop attempt (length api_keys) 1 api_keys.

End CareerViet.

(** ** Further concrete inputs *)

Module MoreExamples.

(** A decision whose question calls for judgement, in capitals. *)
Definition judgement_decision : DecisionPoint.t :=
  DecisionPoint.mk 1 "Choose the MOST relevant article" "first" "looked best" [].

Definition click_with_target (i : Z) (target : string) : ExecutionStep.t :=
  ExecutionStep.mk i "click" (Some target) None (Some "2024-01-01T00:00:00") None.

(** Two traces with the same actions, obstacles and questions, but other
    targets and timestamps. *)
Definition trace_targets_a : ExplorationResult.t :=
  ExplorationResult.mk true
    [click_with_target 1 "#login"; click_with_target 2 "#submit"]
    [] [] None None None None.

Definition trace_targets_b : ExplorationResult.t :=
  ExplorationResult.mk true
    [Examples.step_of 7 "click"; Examples.step_of 9 "click"]
    [] [] None (Some "signed in") None (Some 0.5%float).

(** Obstacles: one the generator has a handler for, one it has none for. *)
Definition modal_obstacle : Obstacle.t :=
  Obstacle.mk "modal" 0.9%float "close" (Some 2).
Definition captcha_obstacle : Obstacle.t :=
  Obstacle.mk "captcha" 0.3%float "manual" None.

(** A click whose locator holds quotes. *)
Definition quoted_click : ExecutionStep.t :=
  click_with_target 4 "a[title='Next']".

Definition scroll_step : ExecutionStep.t :=
  ExecutionStep.mk 5 "scroll" None None None None.

End MoreExamples.

(** ** Further collaborators for the orchestrator examples *)

Module OrchestratorExamples.

Import IntelligentBrowserAutomation.

(** An interpreter under which every script exits with status 1. *)
Definition interpreter_broken (files : Os.Files) (path : string)
  : Outcome CompletedProcess.t :=
  Return (CompletedProcess.mk 1 EmptyString "Traceback (most recent call last)").

Definition adaptive_result : ExecutionResult.t :=
  ExecutionResult.mk true "BROWSER_USE" (Some "42 results") (Some 7)
                     (Some 12.5%float) None None None (Some ["click"; "done"]).

(** The environment of [Examples.example_env] with another exploration
    result and another interpreter. *)
Definition env_with (exploration : ExplorationResult.t)
           (interpreter : Os.Files -> string -> Outcome CompletedProcess.t)
  : Env :=
  mkEnv (fun _ _ => Return exploration)
        (fun _ _ _ => Return adaptive_result)
        interpreter
        (fun n => pretty n +:+ "a1b2c3d4e5f60718293a4b5c6d7e8f90")
        "2024-01-01T00:00:00".

(** Exploration fails and cached scripts fail. *)
Definition broken_env : Env :=
  env_with Examples.failed_exploration interpreter_broken.

(** Exploration finds a task that calls for judgement (six decisions). *)
Definition judgement_env : Env :=
  env_with (Examples.with_decisions 6) Examples.interpreter_ok.



End OrchestratorExamples.


(** ** Agents, histories and keys used by the examples below *)

Module ExplorerExamples.

Definition browser_use_explorer : LLMExplorer.t :=
  LLMExplorer.mk "browser-use"
    (<["type" := LLMExplorer.CStr "browser-use"]>
     (<["browser" := LLMExplorer.CObject "Browser"]>
      (<["llm" := LLMExplorer.CObject "ChatBrowserUse"]> ∅))).

Definition quiet_history : Agent.History :=
  Agent.mkHistory [∅; <["target" := "#go"]> ∅] ["click_element"; "done"]
                  true (Some "ok") 2 1.5%float.

Definition long_history : Agent.History :=
  Agent.mkHistory (repeat ∅ 30) (repeat "wait" 30) true (Some "ok") 30 60%float.

Definition agents_returning (history : Agent.History) : Agent.Env :=
  Agent.mkEnv (fun _ => Return (Return history))
              (fun _ => "2024-01-01T00:00:00").

Definition agents_raising (message : string) : Agent.Env :=
  Agent.mkEnv (fun _ => Return (Raise message))
              (fun _ => "2024-01-01T00:00:00").

Definition keys : list string := ["key-a"; "key-b"; "key-c"].

Definition second_key_works (i : nat) (api_key : string) : Outcome string :=
  if String.eqb api_key "key-b" then Return "applied"
  else Raise ("quota exceeded for key #" +:+ pretty i).

Definition no_key_works (i : nat) (api_key : string) : Outcome string :=
  Raise ("quota exceeded for key #" +:+ pretty i).

Definition variable_and_file (name : string) : option Text.t :=
  if String.eqb name "API_KEYS"
  then Some (Text.of_ascii (" key-one , #spare" +:+ Py.nl +:+ "key-two"))
  else if String.eqb name "GOOGLE_API_KEY_2"
  then Some (Text.of_ascii "key-two")
  else None.

Definition host_with_keys : CareerViet.Host :=
  CareerViet.mkHost
    variable_and_file
    (Some (Return (Text.of_ascii
                     ("# keys" +:+ Py.nl
                      +:+ "PRIMARY=your-primary-key-here" +:+ Py.nl
                      +:+ "BACKUP = key-three " +:+ Py.nl)))).

Definition host_without_keys : CareerViet.Host :=
  CareerViet.mkHost (fun _ => None) None.

End ExplorerExamples.

(** * Properties *)

(** ** The embedded library functions on reference inputs *)

(** The digests of RFC 1321's test suite, and the key of the example in
    the orchestrator's [main]. *)
Example md5_empty :
  Hashlib.md5_hexdigest EmptyString = "d41d8cd98f00b204e9800998ecf8427e".
Proof. vm_compute. reflexivity. Qed.

Example md5_abc :
  Hashlib.md5_hexdigest "abc" = "900150983cd24fb0d6963f7d28e17f72".
Proof. vm_compute. reflexivity. Qed.

Example md5_two_blocks :
  Hashlib.md5_hexdigest
    "12345678901234567890123456789012345678901234567890123456789012345678901234567890"
  = "57edf4a22be3c955ac49da2e2107b67a".
Proof. vm_compute. reflexivity. Qed.

Example generate_id_hacker_news :
  ScriptLibrary._generate_id "https://news.ycombinator.com"
                             "Find the title of the top post"
  = "856121e1f0f8".
Proof. vm_compute. reflexivity. Qed.

Example path_join_default :
  Os.path_join "generated_scripts" "856121e1f0f8.py"
  = "generated_scripts/856121e1f0f8.py".
Proof. reflexivity. Qed.

(** Universal newlines: CR LF and lone CR both read back as LF. *)
Example universal_newlines_mixed :
  Os.universal_newlines ("a" +:+ Py.cr +:+ "b" +:+ Py.cr +:+ Py.nl +:+ "c")
  = "a" +:+ Py.nl +:+ "b" +:+ Py.nl +:+ "c".
Proof. reflexivity. Qed.

(** The variety test is a float comparison: 90 * 0.7 rounds to
    62.99999999999999, so 63 distinct actions out of 90 steps count as too
    varied although 63 is seven tenths of 90. *)
Example variety_test_is_a_float_comparison :
  PrimFloat.ltb (PrimFloat.mul (Py.float_of_nat 90) 0.7%float)
                (Py.float_of_nat 63) = true
  /\ PrimFloat.ltb (PrimFloat.mul (Py.float_of_nat 10) 0.7%float)
                   (Py.float_of_nat 7) = false.
Proof. split; reflexivity. Qed.

(** Case folding and substring search as the decisions check uses them. *)
Example keyword_found_case_insensitively :
  Py.contains "best" (Py.lower "Pick the BEST offer") = true
  /\ Py.contains "best" (Py.lower "Fill form with provided data") = false.
Proof. split; reflexivity. Qed.

(** ** The repeatability analyzer *)

Section AnalyzerFacts.

Import ExplorationResult RepeatabilityScore RepeatabilityAnalyzer.

(** The score is the signed sum of the five contributions. *)
Lemma analyze_score (e : ExplorationResult.t) :
  score (analyze e) =
    contribution (are_steps_deterministic (journey_log e)) 3 0
    + contribution (are_obstacles_predictable (obstacles e)) 2 0
    + contribution (are_decisions_rule_based (decisions e)) 2 (-3)
    + contribution (is_dom_stable e) 2 0
    + contribution (has_dynamic_content e) (-2) 0.
Proof.
  unfold analyze, contribution.
  destruct (are_steps_deterministic _), (are_obstacles_predictable _),
    (are_decisions_rule_based _), (is_dom_stable _), (has_dynamic_content _);
    reflexivity.
Qed.

Lemma analyze_fields (e : ExplorationResult.t) :
  recommendation (analyze e) = get_recommendation (score (analyze e))
  /\ is_repeatable (analyze e) = (5 <=? score (analyze e))%Z
  /\ confidence (analyze e) = Py.min (Py.truediv (Z.abs (score (analyze e))) 10) 1%float.
Proof.
  unfold analyze.
  destruct (are_steps_deterministic _), (are_obstacles_predictable _),
    (are_decisions_rule_based _), (is_dom_stable _), (has_dynamic_content _);
    repeat split.
Qed.

Lemma analyze_score_range (e : ExplorationResult.t) :
  -5 <= score (analyze e) <= 9.
Proof.
  rewrite analyze_score. unfold contribution.
  destruct (are_steps_deterministic _), (are_obstacles_predictable _),
    (are_decisions_rule_based _), (is_dom_stable _), (has_dynamic_content _);
    lia.
Qed.

End AnalyzerFacts.

Section AnalyzerClaims.

Import ExplorationResult RepeatabilityScore RepeatabilityAnalyzer.

(** Every integer between -5 and 9 is one of fifteen values. *)
Lemma score_cases (s : Z) :
  -5 <= s <= 9 ->
  In s [-5; -4; -3; -2; -1; 0; 1; 2; 3; 4; 5; 6; 7; 8; 9].
Proof.
  intros H. simpl.
  assert (s = -5 \/ s = -4 \/ s = -3 \/ s = -2 \/ s = -1 \/ s = 0 \/ s = 1
          \/ s = 2 \/ s = 3 \/ s = 4 \/ s = 5 \/ s = 6 \/ s = 7 \/ s = 8
          \/ s = 9) as Hs by lia.
  intuition auto.
Qed.

(** On the fifteen possible scores the quotient [abs(score) / 10] is at
    most the float 0.9 and never above 1.0. *)
Lemma confidence_table :
  forallb confidence_in_bounds
          [-5; -4; -3; -2; -1; 0; 1; 2; 3; 4; 5; 6; 7; 8; 9] = true.
Proof. vm_compute. reflexivity. Qed.

(** C6. For every exploration result, the score record returned by
    [analyze] has [is_repeatable] equal to the test [score >= 5], and
    [confidence] equal to [min(abs(score) / 10, 1.0)]. *)
Theorem analyze_repeatable_and_confidence (e : ExplorationResult.t) :
  is_repeatable (analyze e) = (5 <=? score (analyze e))%Z
  /\ (is_repeatable (analyze e) = true <-> 5 <= score (analyze e))
  /\ confidence (analyze e)
     = Py.min (Py.truediv (Z.abs (score (analyze e))) 10) 1%float.
Proof.
  destruct (analyze_fields e) as (_ & Hrep & Hconf).
  repeat split; try assumption.
  - rewrite Hrep. apply Z.leb_le.
  - rewrite Hrep. apply Z.leb_le.
Qed.

(** C9. For every exploration result the score lies between -5 and 9
    inclusive; hence the confidence is the unclamped quotient
    [abs(score) / 10], and it never exceeds 0.9. *)
Theorem analyze_score_bounds (e : ExplorationResult.t) :
  -5 <= score (analyze e) <= 9
  /\ confidence (analyze e) = Py.truediv (Z.abs (score (analyze e))) 10
  /\ PrimFloat.leb (confidence (analyze e)) 0.9%float = true.
Proof.
  pose proof (analyze_score_range e) as Hrange.
  destruct (analyze_fields e) as (_ & _ & Hconf).
  pose proof (proj1 (forallb_forall _ _) confidence_table _
                    (score_cases _ Hrange)) as Htab.
  unfold confidence_in_bounds in Htab.
  apply andb_prop in Htab as [Hle Hclamp].
  apply negb_true_iff in Hclamp.
  assert (confidence (analyze e) = Py.truediv (Z.abs (score (analyze e))) 10) as Heq.
  { rewrite Hconf. unfold Py.min. rewrite Hclamp. reflexivity. }
  split; [exact Hrange|]. split; [exact Heq|].
  rewrite Heq. exact Hle.
Qed.

(** C3. For every integer score, [get_recommendation] returns SCRIPT when
    the score is at least 7, HYBRID when it is between 3 and 6 inclusive,
    and BROWSER_USE otherwise; the boundary scores 7, 6, 3 and 2 map to
    SCRIPT, HYBRID, HYBRID and BROWSER_USE. *)
Theorem get_recommendation_thresholds (score : Z) :
  get_recommendation score
  = (if (7 <=? score)%Z then "SCRIPT"
     else if (3 <=? score)%Z && (score <=? 6)%Z then "HYBRID"
     else "BROWSER_USE")
  /\ (get_recommendation score = "SCRIPT" <-> 7 <= score)
  /\ (get_recommendation score = "HYBRID" <-> 3 <= score <= 6)
  /\ (get_recommendation score = "BROWSER_USE" <-> score < 3)
  /\ get_recommendation 7 = "SCRIPT"
  /\ get_recommendation 6 = "HYBRID"
  /\ get_recommendation 3 = "HYBRID"
  /\ get_recommendation 2 = "BROWSER_USE".
Proof.
  unfold get_recommendation.
  destruct (Z.leb_spec 7 score) as [H7|H7];
    destruct (Z.leb_spec 3 score) as [H3|H3];
    destruct (Z.leb_spec score 6) as [H6|H6]; simpl;
    repeat split; intros; try lia; try discriminate; try reflexivity.
Qed.

Lemma get_recommendation_script_iff (score : Z) :
  get_recommendation score = "SCRIPT" <-> 7 <= score.
Proof.
  unfold get_recommendation.
  destruct (Z.leb_spec 7 score) as [H7|H7].
  - split; [intros _; exact H7 | reflexivity].
  - destruct (3 <=? score)%Z; split; intros H; try discriminate; lia.
Qed.

(** The recommendation is never anything but one of the three labels. *)
Lemma get_recommendation_cases (score : Z) :
  get_recommendation score = "SCRIPT"
  \/ get_recommendation score = "HYBRID"
  \/ get_recommendation score = "BROWSER_USE".
Proof.
  unfold get_recommendation.
  destruct (7 <=? score)%Z; [auto|]. destruct (3 <=? score)%Z; auto.
Qed.

(** C10. For every exploration result whose journey log is empty,
    [analyze] never recommends SCRIPT: the deterministic-steps signal is
    false, the score is at most 6, and the routing is HYBRID or
    BROWSER_USE. *)
Theorem empty_log_never_script (e : ExplorationResult.t) :
  journey_log e = [] ->
  deterministic_steps (analyze e) = false
  /\ score (analyze e) <= 6
  /\ recommendation (analyze e) <> "SCRIPT"
  /\ (recommendation (analyze e) = "HYBRID"
      \/ recommendation (analyze e) = "BROWSER_USE").
Proof.
  intros Hlog.
  assert (are_steps_deterministic (journey_log e) = false) as Hdet
      by (rewrite Hlog; reflexivity).
  assert (score (analyze e) <= 6) as Hscore.
  { rewrite analyze_score, Hdet. unfold contribution.
    destruct (are_obstacles_predictable _), (are_decisions_rule_based _),
      (is_dom_stable _), (has_dynamic_content _); lia. }
  destruct (analyze_fields e) as (Hrec & _ & _).
  assert (recommendation (analyze e) <> "SCRIPT") as Hns.
  { rewrite Hrec. intros Hs.
    apply get_recommendation_script_iff in Hs. lia. }
  split.
  { unfold analyze. rewrite Hdet.
    destruct (are_obstacles_predictable _), (are_decisions_rule_based _),
      (is_dom_stable _), (has_dynamic_content _); reflexivity. }
  split; [exact Hscore|]. split; [exact Hns|].
  rewrite Hrec in *.
  destruct (get_recommendation_cases (score (analyze e))) as [H|[H|H]];
    [contradiction | auto | auto].
Qed.

Lemma empty_log_never_script_witness :
  journey_log Examples.empty_trace = []
  /\ recommendation (analyze Examples.empty_trace) <> "SCRIPT".
Proof.
  split; [reflexivity|].
  apply (empty_log_never_script Examples.empty_trace). reflexivity.
Defined.

(** *** Substring tests *)

Lemma prefix_true_iff (k s : string) :
  String.prefix k s = true <-> exists q, s = k +:+ q.
Proof.
  revert s. induction k as [|a k IH]; intros s.
  - split; [intros _; exists s; reflexivity | intros _; destruct s; reflexivity].
  - destruct s as [|b s].
    + split; [discriminate | intros [q Hq]; discriminate].
    + cbn [String.prefix]. destruct (ascii_dec a b) as [->|Hne].
      * rewrite IH. split; intros [q Hq]; exists q.
        -- simpl. now rewrite Hq.
        -- simpl in Hq. now inversion Hq.
      * split; [discriminate|]. intros [q Hq]. simpl in Hq.
        inversion Hq. congruence.
Qed.

Lemma contains_true_iff (k s : string) :
  Py.contains k s = true <-> occurs_in k s.
Proof.
  unfold occurs_in. induction s as [|c s IH].
  - cbn [Py.contains]. rewrite orb_false_r, prefix_true_iff. split.
    + intros [q Hq]. exists EmptyString, q. exact Hq.
    + intros (p & q & H). destruct p; [|discriminate]. exists q. exact H.
  - cbn [Py.contains]. rewrite orb_true_iff, prefix_true_iff, IH. split.
    + intros [[q Hq]|(p & q & Hpq)].
      * exists EmptyString, q. exact Hq.
      * exists (String c p), q. simpl. now rewrite Hpq.
    + intros (p & q & H). destruct p as [|c' p].
      * left. exists q. exact H.
      * right. exists p, q. simpl in H. now inversion H.
Qed.

Lemma contains_false_iff (k s : string) :
  Py.contains k s = false <-> ~ occurs_in k s.
Proof.
  rewrite <- contains_true_iff. destruct (Py.contains k s).
  - split; [discriminate | intros H; exfalso; apply H; reflexivity].
  - split; [intros _; discriminate | reflexivity].
Qed.

(** *** The decision signal *)

Lemma analyze_score_decisions (e : ExplorationResult.t) :
  score (analyze e)
  = other_contributions e
    + contribution (are_decisions_rule_based (decisions e)) 2 (-3)
  /\ rule_based_decisions (analyze e) = are_decisions_rule_based (decisions e).
Proof.
  split; [rewrite analyze_score; unfold other_contributions; lia|].
  unfold analyze.
  destruct (are_steps_deterministic _), (are_obstacles_predictable _),
    (are_decisions_rule_based _), (is_dom_stable _), (has_dynamic_content _);
    reflexivity.
Qed.

Lemma many_decisions_not_rule_based (ds : list DecisionPoint.t) :
  (5 < length ds)%nat -> are_decisions_rule_based ds = false.
Proof.
  intros H. unfold are_decisions_rule_based.
  destruct (Nat.eqb_spec (length ds) 0) as [H0|_]; [lia|].
  destruct (Nat.ltb_spec 5 (length ds)) as [_|H5]; [reflexivity | lia].
Qed.

Lemma few_plain_decisions_rule_based (ds : list DecisionPoint.t) :
  (length ds <= 5)%nat ->
  (forall d k, d ∈ ds -> k ∈ interpretation_keywords ->
               ~ occurs_in k (Py.lower (DecisionPoint.question d))) ->
  are_decisions_rule_based ds = true.
Proof.
  intros Hlen Hplain. unfold are_decisions_rule_based.
  destruct (length ds =? 0)%nat; [reflexivity|].
  destruct (Nat.ltb_spec 5 (length ds)) as [H5|_]; [lia|].
  apply negb_true_iff.
  destruct (existsb _ ds) eqn:Hany; [|reflexivity].
  apply existsb_exists in Hany as (d & Hd & Hkw).
  apply existsb_exists in Hkw as (k & Hk & Hc).
  apply contains_true_iff in Hc.
  exfalso. apply (Hplain d k); [now apply list_elem_of_In .. | exact Hc].
Qed.

(** C5. For every exploration result with more than 5 decision points,
    [are_decisions_rule_based] returns false whatever the questions say, and
    the decisions check contributes -3 to the score of [analyze]; with 5 or
    fewer decisions none of whose (lower-cased) questions contains an
    interpretation keyword it returns true and contributes +2. *)
Theorem decision_count_threshold (e : ExplorationResult.t) :
  ((5 < length (decisions e))%nat ->
   are_decisions_rule_based (decisions e) = false
   /\ rule_based_decisions (analyze e) = false
   /\ score (analyze e) = other_contributions e + (-3))
  /\ ((length (decisions e) <= 5)%nat ->
      (forall d k, d ∈ decisions e -> k ∈ interpretation_keywords ->
                   ~ occurs_in k (Py.lower (DecisionPoint.question d))) ->
      are_decisions_rule_based (decisions e) = true
      /\ rule_based_decisions (analyze e) = true
      /\ score (analyze e) = other_contributions e + 2).
Proof.
  destruct (analyze_score_decisions e) as [Hscore Hflag].
  split.
  - intros Hmany.
    pose proof (many_decisions_not_rule_based _ Hmany) as Hrb.
    rewrite Hscore, Hflag, Hrb. auto.
  - intros Hfew Hplain.
    pose proof (few_plain_decisions_rule_based _ Hfew Hplain) as Hrb.
    rewrite Hscore, Hflag, Hrb. auto.
Qed.

(** The plain data-entry question of the examples contains no keyword. *)
Lemma plain_question_has_no_keyword :
  forallb (fun k => negb (Py.contains k (Py.lower "Fill form with provided data")))
          interpretation_keywords = true.
Proof. vm_compute. reflexivity. Qed.

Lemma with_decisions_plain (n : nat) (d : DecisionPoint.t) (k : string) :
  d ∈ decisions (Examples.with_decisions n) ->
  k ∈ interpretation_keywords ->
  ~ occurs_in k (Py.lower (DecisionPoint.question d)).
Proof.
  intros Hd Hk. apply contains_false_iff, negb_true_iff.
  apply list_elem_of_In in Hd. unfold Examples.with_decisions in Hd. simpl in Hd.
  apply in_map_iff in Hd as (i & <- & _). simpl.
  apply (proj1 (forallb_forall _ _) plain_question_has_no_keyword).
  now apply list_elem_of_In.
Qed.

Lemma decision_count_threshold_witness :
  ((5 < length (decisions (Examples.with_decisions 6)))%nat
   /\ are_decisions_rule_based (decisions (Examples.with_decisions 6)) = false
   /\ score (analyze (Examples.with_decisions 6))
      = other_contributions (Examples.with_decisions 6) + (-3))
  /\ ((length (decisions (Examples.with_decisions 5)) <= 5)%nat
      /\ are_decisions_rule_based (decisions (Examples.with_decisions 5)) = true
      /\ score (analyze (Examples.with_decisions 5))
         = other_contributions (Examples.with_decisions 5) + 2).
Proof.
  split.
  - assert (5 < length (decisions (Examples.with_decisions 6)))%nat as H
        by (simpl; lia).
    split; [exact H|].
    destruct (proj1 (decision_count_threshold (Examples.with_decisions 6)) H)
      as (H1 & _ & H3).
    split; assumption.
  - assert (length (decisions (Examples.with_decisions 5)) <= 5)%nat as H
        by (simpl; lia).
    split; [exact H|].
    destruct (proj2 (decision_count_threshold (Examples.with_decisions 5)) H
                    (with_decisions_plain 5))
      as (H1 & _ & H3).
    split; assumption.
Defined.

(** *** Traces over the four common action kinds *)

(** A log whose set of action kinds is the four common ones has four
    distinct actions. *)
Lemma four_kinds_distinct (actions : list string) :
  (forall a, a ∈ actions <-> a ∈ common_patterns) ->
  length (remove_dups actions) = 4%nat.
Proof.
  intros Hkinds.
  assert (remove_dups actions ≡ₚ common_patterns) as Hperm.
  { apply NoDup_Permutation.
    - apply NoDup_remove_dups.
    - apply (bool_decide_unpack _). vm_compute. exact I.
    - intros a. rewrite elem_of_remove_dups. apply Hkinds. }
  rewrite Hperm. reflexivity.
Qed.

(** Checked for every length below 30. *)
Lemma variety_table : forallb variety_test_agrees (seq 0 30) = true.
Proof. vm_compute. reflexivity. Qed.

Lemma four_kinds_deterministic (log : list ExecutionStep.t) :
  (forall a, a ∈ map ExecutionStep.action log <-> a ∈ common_patterns) ->
  (length log < 30)%nat ->
  are_steps_deterministic log = (6 <=? length log)%nat.
Proof.
  intros Hkinds Hlen. unfold are_steps_deterministic.
  assert ("navigate" ∈ map ExecutionStep.action log) as Hnav.
  { apply Hkinds. unfold common_patterns. apply list_elem_of_here. }
  destruct (Nat.eqb_spec (length log) 0) as [H0|_].
  { apply length_zero_iff_nil in H0. subst log. simpl in Hnav.
    now apply not_elem_of_nil in Hnav. }
  rewrite (four_kinds_distinct _ Hkinds), length_map.
  assert (variety_test_agrees (length log) = true) as Htab.
  { apply (proj1 (forallb_forall _ _) variety_table), in_seq. lia. }
  unfold variety_test_agrees in Htab. apply Bool.eqb_prop in Htab.
  rewrite Htab.
  destruct (Nat.ltb_spec (length log) 6) as [Hlt|Hge].
  - symmetry. apply Nat.leb_gt. exact Hlt.
  - transitivity true; [|symmetry; apply Nat.leb_le; exact Hge].
    apply existsb_exists. exists "navigate". split; [simpl; auto|].
    apply bool_decide_eq_true. exact Hnav.
Qed.

(** The score of a clean trace over the four common kinds, by step count. *)
Lemma four_kinds_score (e : ExplorationResult.t) :
  (forall a, a ∈ map ExecutionStep.action (journey_log e) <-> a ∈ common_patterns) ->
  obstacles e = [] -> decisions e = [] -> success e = true ->
  (length (journey_log e) < 30)%nat ->
  score (analyze e)
  = contribution (6 <=? length (journey_log e))%nat 3 0 + 6
    + contribution (20 <? length (journey_log e))%nat (-2) 0
  /\ deterministic_steps (analyze e) = (6 <=? length (journey_log e))%nat.
Proof.
  intros Hkinds Hobs Hdec Hsucc Hlen.
  assert (deterministic_steps (analyze e)
          = are_steps_deterministic (journey_log e)) as Hflag.
  { unfold analyze.
    destruct (are_steps_deterministic _), (are_obstacles_predictable _),
      (are_decisions_rule_based _), (is_dom_stable _), (has_dynamic_content _);
      reflexivity. }
  rewrite Hflag, analyze_score, (four_kinds_deterministic _ Hkinds Hlen).
  unfold is_dom_stable, has_dynamic_content. rewrite Hobs, Hdec, Hsucc.
  destruct (Nat.ltb_spec (length (journey_log e)) 30) as [_|H30]; [|lia].
  change (are_obstacles_predictable []) with true.
  change (are_decisions_rule_based []) with true.
  change (3 <? length (@nil DecisionPoint.t))%nat with false.
  rewrite orb_false_r. split; [|reflexivity].
  unfold contribution.
  destruct (6 <=? length (journey_log e))%nat,
    (20 <? length (journey_log e))%nat; reflexivity.
Qed.

(** C1, as the code has it. For every exploration result whose steps'
    action kinds are exactly navigate, click, type and extract, with no
    obstacle, no decision, success = true and between 6 and 20 steps,
    [analyze] returns score 9, recommendation SCRIPT, is_repeatable true and
    confidence 0.9. *)
Theorem clean_trace_scores_nine (e : ExplorationResult.t) :
  (forall a, a ∈ map ExecutionStep.action (journey_log e) <-> a ∈ common_patterns) ->
  obstacles e = [] -> decisions e = [] -> success e = true ->
  (6 <= length (journey_log e) <= 20)%nat ->
  score (analyze e) = 9
  /\ recommendation (analyze e) = "SCRIPT"
  /\ is_repeatable (analyze e) = true
  /\ confidence (analyze e) = 0.9%float.
Proof.
  intros Hkinds Hobs Hdec Hsucc [H6 H20].
  destruct (four_kinds_score e Hkinds Hobs Hdec Hsucc) as [Hscore _]; [lia|].
  assert (score (analyze e) = 9) as H9.
  { rewrite Hscore.
    destruct (Nat.leb_spec 6 (length (journey_log e))) as [_|?]; [|lia].
    destruct (Nat.ltb_spec 20 (length (journey_log e))) as [?|_]; [lia|].
    reflexivity. }
  destruct (analyze_fields e) as (Hrec & Hrep & Hconf).
  rewrite Hrec, Hrep, Hconf, H9. repeat split.
Qed.

(** Two concrete lists hold the same kinds when each is included in the
    other, which a computation decides. *)
Lemma same_kinds_by_check (l1 l2 : list string) :
  forallb (fun x => bool_decide (x ∈ l2)) l1
  && forallb (fun x => bool_decide (x ∈ l1)) l2 = true ->
  forall a, a ∈ l1 <-> a ∈ l2.
Proof.
  intros H a. apply andb_prop in H as [H12 H21].
  rewrite forallb_forall in H12, H21.
  split; intros Ha; apply list_elem_of_In in Ha.
  - apply H12 in Ha. now apply bool_decide_eq_true in Ha.
  - apply H21 in Ha. now apply bool_decide_eq_true in Ha.
Qed.

Lemma trace_six_kinds (a : string) :
  a ∈ map ExecutionStep.action (journey_log Examples.trace_six)
  <-> a ∈ common_patterns.
Proof. apply same_kinds_by_check. vm_compute. reflexivity. Qed.

Lemma clean_trace_scores_nine_witness :
  score (analyze Examples.trace_six) = 9
  /\ recommendation (analyze Examples.trace_six) = "SCRIPT"
  /\ is_repeatable (analyze Examples.trace_six) = true
  /\ confidence (analyze Examples.trace_six) = 0.9%float.
Proof.
  apply (clean_trace_scores_nine Examples.trace_six trace_six_kinds);
    try reflexivity.
  simpl. lia.
Defined.

(** The trace navigate, click, type, extract meets every condition of the
    claim as the design document states it (four kinds, no obstacle, no
    decision, success, fewer than 30 steps), and [analyze] gives it score 6,
    HYBRID and confidence 0.6: four distinct actions out of four steps
    exceed the 0.7 variety ratio, so the steps do not count as
    deterministic. *)
Lemma four_step_trace_scores_six :
  (forall a, a ∈ map ExecutionStep.action (journey_log Examples.trace_four)
             <-> a ∈ common_patterns)
  /\ obstacles Examples.trace_four = []
  /\ decisions Examples.trace_four = []
  /\ success Examples.trace_four = true
  /\ (length (journey_log Examples.trace_four) < 30)%nat
  /\ deterministic_steps (analyze Examples.trace_four) = false
  /\ score (analyze Examples.trace_four) = 6
  /\ recommendation (analyze Examples.trace_four) = "HYBRID"
  /\ is_repeatable (analyze Examples.trace_four) = true
  /\ confidence (analyze Examples.trace_four) = 0.6%float.
Proof.
  split; [intros a; reflexivity|].
  repeat split. simpl. lia.
Qed.

(** With 21 to 29 steps the dynamic-content check subtracts 2. *)
Lemma long_clean_trace_scores_seven :
  (forall a, a ∈ map ExecutionStep.action (journey_log Examples.trace_twenty_one)
             <-> a ∈ common_patterns)
  /\ (length (journey_log Examples.trace_twenty_one) < 30)%nat
  /\ score (analyze Examples.trace_twenty_one) = 7
  /\ confidence (analyze Examples.trace_twenty_one) = 0.7%float.
Proof.
  split; [|repeat split; simpl; lia].
  apply same_kinds_by_check. vm_compute. reflexivity.
Qed.

(** Both ends of the score range are reached. *)
Lemma score_extremes_reached :
  score (analyze Examples.worst_trace) = -5
  /\ recommendation (analyze Examples.worst_trace) = "BROWSER_USE"
  /\ score (analyze Examples.trace_six) = 9.
Proof. repeat split. Qed.

End AnalyzerClaims.

(** ** The script generator *)

Section GeneratorClaims.

Import ExplorationResult ScriptGenerator.

Lemma for_enumerate_app {A S : Type} (body : S -> nat -> A -> S)
      (i : nat) (l1 l2 : list A) (acc : S) :
  for_enumerate body i (l1 ++ l2) acc
  = for_enumerate body (i + length l1) l2 (for_enumerate body i l1 acc).
Proof.
  revert i acc. induction l1 as [|x l1 IH]; intros i acc; simpl.
  - now rewrite Nat.add_0_r.
  - rewrite IH. f_equal. lia.
Qed.

(** A step whose action is not recognized leaves the list of blocks as it
    was: the [if]/[elif] chain has no [else]. *)
Lemma main_step_unrecognized (steps : list string) (i : nat)
      (step : ExecutionStep.t) :
  recognized (ExecutionStep.action step) = false ->
  main_step steps i step = steps.
Proof.
  unfold recognized, main_step. intros H.
  apply bool_decide_eq_false in H.
  destruct (String.eqb_spec (ExecutionStep.action step) "click") as [E|_].
  { exfalso. apply H. rewrite E. set_unfold. auto. }
  destruct (bool_decide _) eqn:Hfill.
  { exfalso. apply H. apply bool_decide_eq_true in Hfill.
    rewrite !elem_of_cons in *. tauto. }
  destruct (String.eqb_spec (ExecutionStep.action step) "navigate") as [E|_].
  { exfalso. apply H. rewrite E. rewrite !elem_of_cons. tauto. }
  destruct (String.eqb_spec (ExecutionStep.action step) "scroll") as [E|_].
  { exfalso. apply H. rewrite E. rewrite !elem_of_cons. tauto. }
  reflexivity.
Qed.

(** Each step only ever appends to the blocks emitted so far. *)
Lemma main_step_appends (steps : list string) (i : nat) (step : ExecutionStep.t) :
  main_step steps i step = steps ++ main_step [] i step.
Proof.
  unfold main_step.
  destruct (String.eqb _ "click"); [reflexivity|].
  destruct (bool_decide _); [reflexivity|].
  destruct (String.eqb _ "navigate"); [reflexivity|].
  destruct (String.eqb _ "scroll"); [reflexivity|].
  now rewrite app_nil_r.
Qed.

Lemma for_enumerate_main_step (i : nat) (log : list ExecutionStep.t)
      (steps : list string) :
  for_enumerate main_step i log steps = steps ++ blocks_from i log.
Proof.
  unfold blocks_from. revert i steps.
  induction log as [|x log IH]; intros i steps; simpl.
  - now rewrite app_nil_r.
  - rewrite IH, (IH _ (main_step [] i x)), (main_step_appends steps).
    now rewrite app_assoc.
Qed.

(** Appending a non-empty text changes a string. *)
Lemma append_nonempty_neq (s : string) (c : ascii) (t : string) :
  s <> s +:+ String c t.
Proof.
  induction s as [|a s IH]; simpl.
  - discriminate.
  - intros H. apply IH. now inversion H.
Qed.

(** Whatever the framework and the trace, generation returns a program
    text, and that text is not empty. *)
Lemma generated_code_nonempty (framework now : string)
      (e : ExplorationResult.t) (url task : string) :
  Py.truthy (GeneratedScript.code
               (generate_from_exploration framework now e url task)) = true.
Proof.
  unfold generate_from_exploration.
  destruct (String.eqb framework "playwright"); reflexivity.
Qed.

(** C8, as the code has it. For every exploration result, script generation
    returns a (non-empty) program whatever the action kinds are, and a step
    whose action is not click, type, fill, navigate or scroll is skipped: the
    loop leaves the emitted blocks unchanged, so the main-steps text consists
    of the header, the blocks of the steps before it and the blocks of the
    steps after it, which keep their step numbers. *)
Theorem unrecognized_step_is_skipped
        (framework now : string) (e : ExplorationResult.t) (url task : string)
        (before : list ExecutionStep.t) (s : ExecutionStep.t)
        (after : list ExecutionStep.t) :
  journey_log e = before ++ s :: after ->
  recognized (ExecutionStep.action s) = false ->
  Py.truthy (GeneratedScript.code
               (generate_from_exploration framework now e url task)) = true
  /\ (forall steps i, main_step steps i s = steps)
  /\ _generate_main_steps (journey_log e)
     = Py.join Py.nl (main_steps_header
                        :: blocks_from 1 before
                        ++ blocks_from (2 + length before) after).
Proof.
  intros Hlog Hs. split; [apply generated_code_nonempty|].
  split; [intros steps i; now apply main_step_unrecognized|].
  rewrite Hlog. unfold _generate_main_steps.
  destruct (before ++ s :: after) as [|x l] eqn:Hl.
  { now destruct before. }
  rewrite <- Hl. f_equal.
  rewrite for_enumerate_main_step. change ([main_steps_header] ++ ?l)
    with (main_steps_header :: l). f_equal.
  unfold blocks_from. rewrite for_enumerate_app. simpl.
  rewrite (main_step_unrecognized _ _ _ Hs).
  rewrite (for_enumerate_main_step _ after).
  reflexivity.
Qed.

Lemma unrecognized_step_is_skipped_witness :
  _generate_main_steps (journey_log Examples.trace_click_extract_scroll)
  = Py.join Py.nl
      (main_steps_header
         :: blocks_from 1 [Examples.step_of 1 "click"]
         ++ blocks_from 3 [Examples.step_of 3 "scroll"]).
Proof.
  apply (unrecognized_step_is_skipped
           "playwright" "2024-01-01T00:00:00" Examples.trace_click_extract_scroll
           "https://example.com" "Fill out contact form"
           [Examples.step_of 1 "click"] (Examples.step_of 2 "extract")
           [Examples.step_of 3 "scroll"]).
  - reflexivity.
  - vm_compute. reflexivity.
Defined.

(** For a trace whose only step is an extract, the main-steps text is the
    header alone: no text, placeholder or other, stands for the step. And
    the program generated for click, extract is the program generated for
    click. *)
Lemma extract_step_leaves_no_placeholder :
  recognized "extract" = false
  /\ _generate_main_steps (journey_log Examples.trace_extract_only)
     = main_steps_header
  /\ (forall placeholder : string,
         _generate_main_steps (journey_log Examples.trace_extract_only)
         <> Py.join Py.nl [main_steps_header; placeholder])
  /\ (forall now url task : string,
         generate_from_exploration "playwright" now Examples.trace_click_extract
                                   url task
         = generate_from_exploration "playwright" now Examples.trace_click
                                     url task).
Proof.
  split; [vm_compute; reflexivity|].
  split; [reflexivity|].
  split.
  - intros placeholder.
    change (_generate_main_steps (journey_log Examples.trace_extract_only))
      with main_steps_header.
    cbn [Py.join]. unfold Py.nl.
    apply append_nonempty_neq.
  - intros now url task. reflexivity.
Qed.

End GeneratorClaims.

(** ** The script library *)

Section LibraryClaims.

Import ScriptLibrary.

(** *** Keys and paths *)

Lemma hex_digit_not_sep (d : Z) : Hashlib.hex_digit d <> "/"%char.
Proof.
  unfold Hashlib.hex_digit.
  destruct (nth_in_or_default (Z.to_nat d) Hashlib.hex_digits "0"%char)
    as [Hin|Hdef].
  - intros Heq. rewrite Heq in Hin. simpl in Hin.
    repeat (destruct Hin as [Hin|Hin]; [discriminate Hin|]). exact Hin.
  - rewrite Hdef. discriminate.
Qed.

(** A script file name, [<id>.py], never starts with the path separator:
    the id is made of hexadecimal digits. *)
Lemma script_file_name_relative (url task : string) :
  String.prefix "/" (_generate_id url task +:+ ".py") = false.
Proof.
  unfold _generate_id, Hashlib.md5_hexdigest.
  generalize (Hashlib.digest (Hashlib.bytes_of_string (url +:+ ":" +:+ task))).
  intros [|b bs]; [reflexivity|].
  cbn [Hashlib.hex String.substring].
  change (String ?a ?s +:+ ?t) with (String a (s +:+ t)).
  cbn [String.prefix].
  destruct (ascii_dec "/" (Hashlib.hex_digit (Z.shiftr b 4))) as [E|_];
    [|reflexivity].
  exfalso. now apply (hex_digit_not_sep (Z.shiftr b 4)).
Qed.

Lemma string_length_app (a b : string) :
  String.length (a +:+ b) = (String.length a + String.length b)%nat.
Proof.
  induction a as [|c a IH]; [reflexivity|].
  change (String c a +:+ b) with (String c (a +:+ b)).
  cbn [String.length]. now rewrite IH.
Qed.

Lemma string_app_inv_tail (s1 s2 t : string) :
  s1 +:+ t = s2 +:+ t -> s1 = s2.
Proof.
  revert s2. induction s1 as [|a s1 IH]; intros [|b s2] H.
  - reflexivity.
  - apply (f_equal String.length) in H. rewrite !string_length_app in H.
    cbn [String.length] in H. lia.
  - apply (f_equal String.length) in H. rewrite !string_length_app in H.
    cbn [String.length] in H. lia.
  - change (String a (s1 +:+ t) = String b (s2 +:+ t)) in H.
    inversion H. f_equal. now apply IH.
Qed.

(** Two (url, task) pairs are stored in the same file exactly when their
    keys are equal. *)
Lemma script_path_inj (self : ScriptLibrary.t) (u t u' t' : string) :
  script_path_of self u t = script_path_of self u' t' ->
  _generate_id u t = _generate_id u' t'.
Proof.
  unfold script_path_of, Os.path_join.
  rewrite !script_file_name_relative.
  destruct (negb (Py.truthy (library_path self))
            || Os.endswith_sep (library_path self)); intros H.
  - apply (inj (String.append _)) in H. now apply string_app_inv_tail in H.
  - apply (inj (String.append _)) in H. apply (inj (String.append _)) in H.
    now apply string_app_inv_tail in H.
Qed.

(** *** Reading back *)

Lemma find_lookup (self : ScriptLibrary.t) (files : Os.Files) (u t : string) :
  find self files u t
  = Os.universal_newlines <$> files !! script_path_of self u t.
Proof.
  unfold find, Os.path_exists, Os.read_text.
  destruct (files !! script_path_of self u t) as [data|] eqn:Hl.
  - rewrite bool_decide_eq_true_2 by eauto. reflexivity.
  - rewrite bool_decide_eq_false_2; [reflexivity|].
    intros [x Hx]. discriminate.
Qed.

Lemma find_save_same (self : ScriptLibrary.t) (files : Os.Files)
      (u t code : string) :
  find self (snd (save self files u t code)) u t
  = Some (Os.universal_newlines code).
Proof.
  rewrite find_lookup. unfold save, Os.write_text. simpl.
  now rewrite lookup_insert_eq.
Qed.

Lemma find_save_other (self : ScriptLibrary.t) (files : Os.Files)
      (u t u' t' code : string) :
  _generate_id u' t' <> _generate_id u t ->
  find self (snd (save self files u' t' code)) u t = find self files u t.
Proof.
  intros Hne. rewrite !find_lookup. unfold save, Os.write_text. simpl.
  rewrite lookup_insert_ne; [reflexivity|].
  intros Heq. apply Hne. now apply script_path_inj in Heq.
Qed.

Lemma find_save_all_other (self : ScriptLibrary.t) (files : Os.Files)
      (calls : list (string * string * string)) (u t : string) :
  (forall u' t' code', (u', t', code') ∈ calls ->
                       _generate_id u' t' <> _generate_id u t) ->
  find self (save_all self files calls) u t = find self files u t.
Proof.
  revert files. induction calls as [|[[u' t'] code'] calls IH];
    intros files Hother; [reflexivity|].
  change (save_all self files ((u', t', code') :: calls))
    with (save_all self (snd (save self files u' t' code')) calls).
  rewrite IH.
  - apply find_save_other. apply (Hother u' t' code'). apply list_elem_of_here.
  - intros u2 t2 c2 Hin. apply (Hother u2 t2 c2).
    now apply list_elem_of_further.
Qed.

(** Text without a carriage return is read back unchanged. *)
Lemma universal_newlines_without_cr (s : string) :
  Py.contains Py.cr s = false -> Os.universal_newlines s = s.
Proof.
  induction s as [|c s IH]; [reflexivity|].
  cbn [Py.contains Py.cr String.prefix Os.universal_newlines].
  intros H. apply orb_false_elim in H as [Hhead Htail].
  destruct (Ascii.eqb_spec c (ascii_of_nat 13)) as [->|Hc].
  - destruct (ascii_dec (ascii_of_nat 13) (ascii_of_nat 13)) as [_|Hn];
      [|now elim Hn].
    destruct s; discriminate Hhead.
  - f_equal. apply IH. exact Htail.
Qed.

(** C4, as the code has it. For every url, task and program text,
    [find] after [save] of the same pair, with no later [save] under the
    same key, returns the saved text as a text-mode read gives it back: with
    every CR LF and every lone CR turned into LF, hence exactly the saved
    text when it holds no carriage return. And in a library that started
    empty, [find] returns nothing for a pair whose key no [save] has used. *)
Theorem library_round_trip
        (self : ScriptLibrary.t) (files : Os.Files) (u t code : string)
        (later earlier : list (string * string * string)) :
  (forall u' t' code', (u', t', code') ∈ later ->
                       _generate_id u' t' <> _generate_id u t) ->
  (forall u' t' code', (u', t', code') ∈ earlier ->
                       _generate_id u' t' <> _generate_id u t) ->
  find self (save_all self (snd (save self files u t code)) later) u t
  = Some (Os.universal_newlines code)
  /\ (Py.contains Py.cr code = false ->
      find self (save_all self (snd (save self files u t code)) later) u t
      = Some code)
  /\ find self (save_all self ∅ earlier) u t = None.
Proof.
  intros Hlater Hearlier.
  assert (find self (save_all self (snd (save self files u t code)) later) u t
          = Some (Os.universal_newlines code)) as Hfind.
  { rewrite (find_save_all_other _ _ _ _ _ Hlater). apply find_save_same. }
  split; [exact Hfind|]. split.
  - intros Hcr. rewrite Hfind. f_equal.
    now apply universal_newlines_without_cr.
  - rewrite (find_save_all_other _ _ _ _ _ Hearlier), find_lookup.
    now rewrite lookup_empty.
Qed.

Lemma other_call_has_other_key (u' t' code' : string) :
  (u', t', code') ∈ [Examples.other_call] ->
  _generate_id u' t' <> _generate_id Examples.example_url Examples.example_task.
Proof.
  intros Hin. apply list_elem_of_singleton in Hin.
  unfold Examples.other_call in Hin. inversion Hin; subst.
  vm_compute. discriminate.
Qed.

Lemma library_round_trip_witness :
  find ScriptLibrary.default
       (save_all ScriptLibrary.default
          (snd (save ScriptLibrary.default ∅ Examples.example_url
                     Examples.example_task Examples.program_lf))
          [Examples.other_call])
       Examples.example_url Examples.example_task
  = Some Examples.program_lf
  /\ find ScriptLibrary.default
          (save_all ScriptLibrary.default ∅ [Examples.other_call])
          Examples.example_url Examples.example_task
     = None.
Proof.
  destruct (library_round_trip
              ScriptLibrary.default ∅ Examples.example_url
              Examples.example_task Examples.program_lf
              [Examples.other_call] [Examples.other_call]
              other_call_has_other_key other_call_has_other_key)
    as (_ & Hsame & Hnone).
  split; [|exact Hnone].
  apply Hsame. vm_compute. reflexivity.
Defined.

(** A program saved with a DOS line ending is not what [find] returns: the
    text-mode read turns CR LF into LF. *)
Lemma crlf_program_not_read_back :
  find ScriptLibrary.default
       (snd (save ScriptLibrary.default ∅ Examples.example_url
                  Examples.example_task Examples.program_crlf))
       Examples.example_url Examples.example_task
  = Some Examples.program_lf
  /\ Some Examples.program_lf <> Some Examples.program_crlf.
Proof.
  split.
  - rewrite find_save_same. vm_compute. reflexivity.
  - vm_compute. discriminate.
Qed.

End LibraryClaims.

(** ** The orchestrator *)

Section OrchestratorClaims.

Import IntelligentBrowserAutomation.

Variable env : Env.
Variable script_library : ScriptLibrary.t.

(** When the lookup yields nothing usable, [execute] is the exploration
    path. *)
Lemma execute_on_miss (w : World) (url task : string) :
  ScriptLibrary.find script_library (files w) url task = None ->
  execute env script_library w url task
  = explore_and_route env script_library w url task.
Proof. intros H. unfold execute. now rewrite H. Qed.

Lemma explore_and_route_failure (w : World) (url task : string)
      (e : ExplorationResult.t) :
  explore_task env url task = Return e ->
  ExplorationResult.success e = false ->
  explore_and_route env script_library w url task
  = (Return (PyExecutionResult
               (ExecutionResult.mk false "EXPLORATION_FAILED" None
                  None None None (ExplorationResult.error e) None None)), w).
Proof. intros He Hs. unfold explore_and_route. now rewrite He, Hs. Qed.

(** C7. For every url and task on a cache miss, if the exploration engine
    returns an unsuccessful exploration result, [execute] returns an
    execution result with success = false, method = EXPLORATION_FAILED and
    the engine's error, and leaves the world as it was. *)
Theorem exploration_failure_is_terminal (w : World) (url task : string)
        (e : ExplorationResult.t) :
  ScriptLibrary.find script_library (files w) url task = None ->
  explore_task env url task = Return e ->
  ExplorationResult.success e = false ->
  exists r : ExecutionResult.t,
    execute env script_library w url task = (Return (PyExecutionResult r), w)
    /\ ExecutionResult.success r = false
    /\ ExecutionResult.method r = "EXPLORATION_FAILED"
    /\ ExecutionResult.result r = None
    /\ ExecutionResult.error r = ExplorationResult.error e.
Proof.
  intros Hmiss He Hs.
  eexists. split.
  - rewrite (execute_on_miss _ _ _ Hmiss).
    apply (explore_and_route_failure _ _ _ _ He Hs).
  - repeat split.
Qed.


(** An empty cached script is treated as a miss: [if existing_script:] is
    false for the empty string. *)
Lemma execute_cached_empty (w : World) (url task : string) :
  ScriptLibrary.find script_library (files w) url task = Some EmptyString ->
  execute env script_library w url task
  = explore_and_route env script_library w url task.
Proof. intros H. unfold execute. now rewrite H. Qed.

End OrchestratorClaims.

Lemma exploration_failure_is_terminal_witness :
  exists r : ExecutionResult.t,
    IntelligentBrowserAutomation.execute
      Examples.example_env ScriptLibrary.default Examples.empty_world
      Examples.example_url Examples.example_task
    = (Return (PyExecutionResult r), Examples.empty_world)
    /\ ExecutionResult.success r = false
    /\ ExecutionResult.method r = "EXPLORATION_FAILED"
    /\ ExecutionResult.result r = None
    /\ ExecutionResult.error r = Some "browser crashed".
Proof.
  apply (exploration_failure_is_terminal
           Examples.example_env ScriptLibrary.default Examples.empty_world
           Examples.example_url Examples.example_task
           Examples.failed_exploration).
  - vm_compute. reflexivity.
  - reflexivity.
  - reflexivity.
Defined.

(** C2, on the code. With a script cached for the example task and an
    interpreter that runs it successfully and prints one line, [execute]
    returns that line as a bare string: no execution result, hence no
    method SCRIPT, comes back. *)
Theorem cached_run_returns_bare_string :
  ScriptLibrary.find ScriptLibrary.default
                     (IntelligentBrowserAutomation.files Examples.cached_world)
                     Examples.example_url Examples.example_task
  = Some Examples.program_lf
  /\ fst (IntelligentBrowserAutomation._execute_script
            Examples.example_env Examples.cached_world Examples.program_lf)
     = Return ("done" +:+ Py.nl)
  /\ fst (IntelligentBrowserAutomation.execute
            Examples.example_env ScriptLibrary.default Examples.cached_world
            Examples.example_url Examples.example_task)
     = Return (PyStr ("done" +:+ Py.nl))
  /\ (forall r : ExecutionResult.t,
         fst (IntelligentBrowserAutomation.execute
                Examples.example_env ScriptLibrary.default Examples.cached_world
                Examples.example_url Examples.example_task)
         <> Return (PyExecutionResult r)).
Proof.
  assert (fst (IntelligentBrowserAutomation.execute
                 Examples.example_env ScriptLibrary.default Examples.cached_world
                 Examples.example_url Examples.example_task)
          = Return (PyStr ("done" +:+ Py.nl))) as Hexec
      by (vm_compute; reflexivity).
  split; [vm_compute; reflexivity|].
  split; [vm_compute; reflexivity|].
  split; [exact Hexec|].
  intros r. rewrite Hexec. discriminate.
Qed.

(** * Further properties of the code *)

(** ** The repeatability analyzer *)

Section AnalyzerExtras.

Import ExplorationResult RepeatabilityScore RepeatabilityAnalyzer.

Lemma existsb_false_iff {A : Type} (f : A -> bool) (l : list A) :
  existsb f l = false <-> forall x, In x l -> f x = false.
Proof.
  induction l as [|y l IH]; simpl.
  - split; [intros _ x [] | reflexivity].
  - rewrite orb_false_iff, IH. split.
    + intros [Hy Hl] x [<-|Hx]; auto.
    + intros H. split; [apply H; auto | intros x Hx; apply H; auto].
Qed.

(** X1. Obstacles are predictable exactly when every obstacle has a likelihood
    above 0.7 and a type other than captcha, random_redirect and
    bot_detection; the empty list is the vacuous case of the same rule, and
    one unlikely or unpredictable obstacle is enough to lose the signal. *)
Theorem obstacles_predictable_iff (obstacles : list Obstacle.t) :
  are_obstacles_predictable obstacles = true
  <-> (forall obs, obs ∈ obstacles ->
         PrimFloat.ltb 0.7%float (Obstacle.likelihood obs) = true
         /\ Obstacle.type obs ∉ unpredictable_types).
Proof.
  unfold are_obstacles_predictable.
  destruct obstacles as [|o l] eqn:Hl.
  { split; [intros _ obs Hin; now apply not_elem_of_nil in Hin | reflexivity]. }
  rewrite <- Hl. assert ((length obstacles =? 0)%nat = false) as ->
      by (subst; reflexivity).
  rewrite andb_true_iff, negb_true_iff, forallb_forall, existsb_false_iff.
  clear Hl. split.
  - intros [Hlik Htyp] obs Hin. apply list_elem_of_In in Hin. split.
    + now apply Hlik.
    + apply Htyp in Hin. now apply bool_decide_eq_false in Hin.
  - intros H. split; intros obs Hin; apply list_elem_of_In in Hin;
      destruct (H obs Hin) as [H1 H2]; [exact H1|].
    now apply bool_decide_eq_false.
Qed.

(** X2. Decisions are rule-based exactly when there are at most five of them
    and no question contains an interpretation keyword, letter case apart:
    a single question such as "Choose the MOST relevant article" makes them
    not rule-based. *)
Theorem decisions_rule_based_iff (ds : list DecisionPoint.t) :
  are_decisions_rule_based ds = true
  <-> ((length ds <= 5)%nat
       /\ forall d k, d ∈ ds -> k ∈ interpretation_keywords ->
                      ~ occurs_in k (Py.lower (DecisionPoint.question d))).
Proof.
  split.
  - intros Hrb. split.
    + destruct (Nat.le_gt_cases (length ds) 5) as [H|H]; [exact H|].
      rewrite (many_decisions_not_rule_based ds H) in Hrb. discriminate.
    + intros d k Hd Hk Hocc. unfold are_decisions_rule_based in Hrb.
      destruct ds as [|d0 ds']; [now apply not_elem_of_nil in Hd|].
      cbn [length Nat.eqb] in Hrb.
      destruct (5 <? S (length ds'))%nat; [discriminate|].
      apply negb_true_iff in Hrb.
      rewrite existsb_false_iff in Hrb.
      apply list_elem_of_In in Hd. specialize (Hrb d Hd).
      rewrite existsb_false_iff in Hrb.
      apply list_elem_of_In in Hk. specialize (Hrb k Hk).
      apply contains_false_iff in Hrb. contradiction.
  - intros [Hlen Hplain]. now apply few_plain_decisions_rule_based.
Qed.

Example judgement_question_is_not_rule_based :
  are_decisions_rule_based [MoreExamples.judgement_decision] = false.
Proof. reflexivity. Qed.

Lemma analyze_flags (e : ExplorationResult.t) :
  deterministic_steps (analyze e) = are_steps_deterministic (journey_log e)
  /\ predictable_obstacles (analyze e) = are_obstacles_predictable (obstacles e)
  /\ rule_based_decisions (analyze e) = are_decisions_rule_based (decisions e)
  /\ stable_dom (analyze e) = is_dom_stable e.
Proof.
  unfold analyze.
  destruct (are_steps_deterministic _), (are_obstacles_predictable _),
    (are_decisions_rule_based _), (is_dom_stable _), (has_dynamic_content _);
    repeat split.
Qed.

(** X3. SCRIPT is recommended only for traces whose steps count as
    deterministic and whose decisions count as rule-based, and such a trace
    is always flagged repeatable: without either signal the score stays
    below 7. *)
Theorem script_needs_deterministic_rule_based (e : ExplorationResult.t) :
  recommendation (analyze e) = "SCRIPT" ->
  deterministic_steps (analyze e) = true
  /\ rule_based_decisions (analyze e) = true
  /\ is_repeatable (analyze e) = true.
Proof.
  intros Hrec.
  destruct (analyze_fields e) as (Hr & Hrep & _).
  destruct (analyze_flags e) as (Hdet & _ & Hrb & _).
  rewrite Hr in Hrec. apply get_recommendation_script_iff in Hrec.
  rewrite Hdet, Hrb, Hrep.
  pose proof (analyze_score e) as Hs. unfold contribution in Hs.
  destruct (are_steps_deterministic _), (are_obstacles_predictable _),
    (are_decisions_rule_based _), (is_dom_stable _), (has_dynamic_content _);
    try (exfalso; lia);
    (split; [reflexivity|]; split; [reflexivity|]; apply Z.leb_le; lia).
Qed.

Lemma script_needs_deterministic_rule_based_witness :
  deterministic_steps (analyze Examples.trace_six) = true
  /\ rule_based_decisions (analyze Examples.trace_six) = true
  /\ is_repeatable (analyze Examples.trace_six) = true.
Proof.
  apply (script_needs_deterministic_rule_based Examples.trace_six).
  reflexivity.
Defined.

(** X4. With more than five decision points the score is at most 2, so the
    task is always routed to BROWSER_USE and never flagged repeatable,
    whatever the steps and obstacles are: the decision count costs 3 and,
    being above 3, makes the content count as dynamic as well. *)
Theorem many_decisions_route_to_browser_use (e : ExplorationResult.t) :
  (5 < length (decisions e))%nat ->
  score (analyze e) <= 2
  /\ recommendation (analyze e) = "BROWSER_USE"
  /\ is_repeatable (analyze e) = false.
Proof.
  intros Hmany.
  destruct (analyze_fields e) as (Hr & Hrep & _).
  assert (score (analyze e) <= 2) as Hscore.
  { rewrite analyze_score, (many_decisions_not_rule_based _ Hmany).
    unfold has_dynamic_content.
    destruct (Nat.ltb_spec 3 (length (decisions e))) as [_|H3]; [|lia].
    rewrite orb_true_r. unfold contribution.
    destruct (are_steps_deterministic _), (are_obstacles_predictable _),
      (is_dom_stable _); lia. }
  split; [exact Hscore|]. rewrite Hr, Hrep. split.
  - unfold get_recommendation.
    destruct (Z.leb_spec 7 (score (analyze e))); [lia|].
    destruct (Z.leb_spec 3 (score (analyze e))); [lia|reflexivity].
  - apply Z.leb_gt. lia.
Qed.

Lemma many_decisions_route_to_browser_use_witness :
  score (analyze (Examples.with_decisions 6)) <= 2
  /\ recommendation (analyze (Examples.with_decisions 6)) = "BROWSER_USE"
  /\ is_repeatable (analyze (Examples.with_decisions 6)) = false.
Proof.
  apply (many_decisions_route_to_browser_use (Examples.with_decisions 6)).
  simpl. lia.
Defined.

(** X5. Steps count as deterministic only for a log of at least two steps in
    which navigate, click, type or extract occurs: a single step is always
    "too varied" (1 > 0.7), and a log made of other actions only, such as
    fill and scroll, shows no pattern. *)
Theorem deterministic_needs_two_steps_and_a_pattern
        (journey_log : list ExecutionStep.t) :
  are_steps_deterministic journey_log = true ->
  (2 <= length journey_log)%nat
  /\ exists a, a ∈ common_patterns
               /\ a ∈ map ExecutionStep.action journey_log.
Proof.
  intros Hdet. split.
  - destruct journey_log as [|s1 [|s2 l]]; simpl; try lia; discriminate Hdet.
  - unfold are_steps_deterministic in Hdet.
    destruct (length journey_log =? 0)%nat; [discriminate|].
    destruct (PrimFloat.ltb _ _); [discriminate|].
    apply existsb_exists in Hdet as (a & Ha & Hin).
    exists a. split; [now apply list_elem_of_In|].
    now apply bool_decide_eq_true in Hin.
Qed.

Lemma deterministic_needs_two_steps_and_a_pattern_witness :
  (2 <= length (journey_log MoreExamples.trace_targets_a))%nat
  /\ exists a, a ∈ common_patterns
               /\ a ∈ map ExecutionStep.action
                        (journey_log MoreExamples.trace_targets_a).
Proof.
  apply (deterministic_needs_two_steps_and_a_pattern
           (journey_log MoreExamples.trace_targets_a)).
  reflexivity.
Defined.

Lemma existsb_map_compose {A B : Type} (f : B -> bool) (g : A -> B)
      (l : list A) :
  existsb (fun x => f (g x)) l = existsb f (map g l).
Proof. induction l as [|x l IH]; simpl; [reflexivity | now rewrite IH]. Qed.

Lemma steps_deterministic_by_actions (log log' : list ExecutionStep.t) :
  map ExecutionStep.action log = map ExecutionStep.action log' ->
  are_steps_deterministic log = are_steps_deterministic log'.
Proof.
  intros H. unfold are_steps_deterministic.
  rewrite <- (length_map ExecutionStep.action log),
    <- (length_map ExecutionStep.action log'), H.
  reflexivity.
Qed.

Lemma decisions_rule_based_by_questions (ds ds' : list DecisionPoint.t) :
  map DecisionPoint.question ds = map DecisionPoint.question ds' ->
  are_decisions_rule_based ds = are_decisions_rule_based ds'.
Proof.
  intros H. unfold are_decisions_rule_based.
  rewrite <- (length_map DecisionPoint.question ds),
    <- (length_map DecisionPoint.question ds').
  rewrite (existsb_map_compose
             (fun q => existsb (fun keyword => Py.contains keyword (Py.lower q))
                               interpretation_keywords)
             DecisionPoint.question ds).
  rewrite (existsb_map_compose
             (fun q => existsb (fun keyword => Py.contains keyword (Py.lower q))
                               interpretation_keywords)
             DecisionPoint.question ds').
  now rewrite H.
Qed.

(** X6. The analysis reads a trace only through its success flag, the actions
    of its steps, its obstacles and the questions of its decisions: targets,
    values, timestamps, step numbers, answers, the final result and the
    error never change the score record. *)
Theorem analyze_reads_actions_and_questions_only (e e' : ExplorationResult.t) :
  success e = success e' ->
  map ExecutionStep.action (journey_log e)
  = map ExecutionStep.action (journey_log e') ->
  obstacles e = obstacles e' ->
  map DecisionPoint.question (decisions e)
  = map DecisionPoint.question (decisions e') ->
  analyze e = analyze e'.
Proof.
  intros Hsucc Hact Hobs Hq.
  assert (length (journey_log e) = length (journey_log e')) as Hlen.
  { rewrite <- (length_map ExecutionStep.action (journey_log e)),
      <- (length_map ExecutionStep.action (journey_log e')). now rewrite Hact. }
  assert (length (decisions e) = length (decisions e')) as Hlend.
  { rewrite <- (length_map DecisionPoint.question (decisions e)),
      <- (length_map DecisionPoint.question (decisions e')). now rewrite Hq. }
  unfold analyze.
  rewrite (steps_deterministic_by_actions _ _ Hact), Hobs,
    (decisions_rule_based_by_questions _ _ Hq).
  unfold is_dom_stable, has_dynamic_content. rewrite Hsucc, Hlen, Hlend.
  reflexivity.
Qed.

Lemma analyze_reads_actions_and_questions_only_witness :
  analyze MoreExamples.trace_targets_a = analyze MoreExamples.trace_targets_b.
Proof.
  apply (analyze_reads_actions_and_questions_only
           MoreExamples.trace_targets_a MoreExamples.trace_targets_b);
    reflexivity.
Defined.

End AnalyzerExtras.

(** ** The script generator *)

Section GeneratorExtras.

Import ScriptGenerator.

Lemma string_app_assoc (a b c : string) :
  (a +:+ b) +:+ c = a +:+ (b +:+ c).
Proof.
  induction a as [|x a IH]; [reflexivity|].
  change (String x ((a +:+ b) +:+ c) = String x (a +:+ (b +:+ c))).
  now rewrite IH.
Qed.

Lemma occurs_in_app_r (k a s : string) :
  occurs_in k s -> occurs_in k (a +:+ s).
Proof.
  intros (p & q & ->). exists (a +:+ p), q. now rewrite string_app_assoc.
Qed.

Lemma occurs_in_app_l (k s b : string) :
  occurs_in k s -> occurs_in k (s +:+ b).
Proof.
  intros (p & q & ->). exists p, (q +:+ b).
  now rewrite !string_app_assoc.
Qed.

Lemma occurs_in_here (k q : string) : occurs_in k (k +:+ q).
Proof. now exists EmptyString, q. Qed.

(** An obstacle of a type without a handler leaves the handlers as they
    are. *)
Lemma obstacle_handler_unknown (handlers : list string) (o : Obstacle.t) :
  Obstacle.type o ∉ ["cookie_banner"; "modal"; "ad"] ->
  obstacle_handler handlers o = handlers.
Proof.
  intros H. unfold obstacle_handler.
  destruct (String.eqb_spec (Obstacle.type o) "cookie_banner") as [E|_].
  { exfalso. apply H. rewrite E. apply list_elem_of_here. }
  destruct (String.eqb_spec (Obstacle.type o) "modal") as [E|_].
  { exfalso. apply H. rewrite E. apply list_elem_of_further, list_elem_of_here. }
  destruct (String.eqb_spec (Obstacle.type o) "ad") as [E|_].
  { exfalso. apply H. rewrite E.
    apply list_elem_of_further, list_elem_of_further, list_elem_of_here. }
  reflexivity.
Qed.

(** X7. An obstacle whose type is not cookie_banner, modal or ad (a
    captcha, a redirect) gets no handler: beside other obstacles it leaves
    the generated handlers exactly as they are without it, and alone it
    yields the bare header line instead of the no-obstacle comment. *)
Theorem unhandled_obstacle_is_ignored
        (before : list Obstacle.t) (o : Obstacle.t) (after : list Obstacle.t) :
  Obstacle.type o ∉ ["cookie_banner"; "modal"; "ad"] ->
  (before ++ after <> [] ->
   _generate_obstacle_handlers (before ++ o :: after)
   = _generate_obstacle_handlers (before ++ after))
  /\ _generate_obstacle_handlers [o] = "            # Handle common obstacles".
Proof.
  intros Htype. split.
  - intros Hne. unfold _generate_obstacle_handlers.
    destruct (before ++ o :: after) as [|x l] eqn:Hl; [now destruct before|].
    destruct (before ++ after) as [|y k] eqn:Hk; [contradiction|].
    rewrite <- Hl, <- Hk. f_equal.
    rewrite !fold_left_app. cbn [fold_left].
    now rewrite (obstacle_handler_unknown _ _ Htype).
  - unfold _generate_obstacle_handlers. cbn [fold_left].
    now rewrite (obstacle_handler_unknown _ _ Htype).
Qed.

Lemma unhandled_obstacle_is_ignored_witness :
  _generate_obstacle_handlers
    [MoreExamples.modal_obstacle; MoreExamples.captcha_obstacle]
  = _generate_obstacle_handlers [MoreExamples.modal_obstacle].
Proof.
  apply (unhandled_obstacle_is_ignored
           [MoreExamples.modal_obstacle] MoreExamples.captcha_obstacle []).
  - apply (bool_decide_unpack _). vm_compute. exact I.
  - discriminate.
Defined.

Lemma main_step_scroll (steps : list string) (i : nat) (s : ExecutionStep.t) :
  ExecutionStep.action s = "scroll" ->
  main_step steps i s = steps ++ ["
            # Step {i}: Scroll
            print(" +:+ Py.dq +:+ "📜 Scrolling..." +:+ Py.dq +:+ ")
            await page.evaluate(" +:+ Py.dq +:+ "window.scrollBy(0, 500)" +:+ Py.dq +:+ ")
            await page.wait_for_timeout(500)
"].
Proof.
  intros Hact. unfold main_step. rewrite Hact. reflexivity.
Qed.

(** X8. The block of a scroll step is the same text whatever the step
    number: it is written as a plain string, not an f-string, so the
    generated comment reads "# Step {i}: Scroll" with the braces in it. *)
Theorem scroll_block_ignores_step_number
        (steps : list string) (i j : nat) (s : ExecutionStep.t) :
  ExecutionStep.action s = "scroll" ->
  main_step steps i s = main_step steps j s
  /\ exists block, main_step [] i s = [block]
                   /\ occurs_in "# Step {i}: Scroll" block.
Proof.
  intros Hact. rewrite !(main_step_scroll _ _ _ Hact).
  split; [reflexivity|].
  eexists. split; [reflexivity|].
  apply contains_true_iff. vm_compute. reflexivity.
Qed.

Lemma scroll_block_ignores_step_number_witness :
  main_step [] 1 MoreExamples.scroll_step
  = main_step [] 2 MoreExamples.scroll_step.
Proof.
  apply (scroll_block_ignores_step_number [] 1 2 MoreExamples.scroll_step).
  reflexivity.
Defined.

(** X9. A click step emits one block that carries its step number and the
    locator exactly as recorded, between single quotes and without any
    escaping (so a locator holding a quote breaks the generated line); a
    missing or empty locator becomes 'button'. *)
Theorem click_block_interpolates_target
        (i : nat) (s : ExecutionStep.t) :
  ExecutionStep.action s = "click" ->
  exists block,
    main_step [] i s = [block]
    /\ occurs_in ("# Step " +:+ pretty i +:+ ": Click") block
    /\ occurs_in ("await page.click('"
                  +:+ Py.or_str (ExecutionStep.target s) "button" +:+ "')")
                 block.
Proof.
  intros Hact. unfold main_step. rewrite Hact. cbn [String.eqb].
  eexists. split; [reflexivity|]. split.
  - exists (Py.nl +:+ "            "). eexists.
    rewrite (string_app_assoc "# Step "), (string_app_assoc (pretty i)).
    reflexivity.
  - match goal with
    | |- occurs_in _ (?a +:+ ?b +:+ ?c +:+ ?d +:+ ?e +:+ ?f +:+ ?g +:+ _) =>
        exists (a +:+ b +:+ c +:+ d +:+ e +:+ f +:+ ")" +:+ Py.nl
                +:+ "            ")
    end.
    eexists.
    rewrite !string_app_assoc.
    reflexivity.
Qed.

Lemma click_block_interpolates_target_witness :
  exists block,
    main_step [] 4 MoreExamples.quoted_click = [block]
    /\ occurs_in "# Step 4: Click" block
    /\ occurs_in "await page.click('a[title='Next']')" block.
Proof.
  apply (click_block_interpolates_target 4 MoreExamples.quoted_click).
  reflexivity.
Defined.

Lemma main_step_length (i : nat) (s : ExecutionStep.t) :
  length (main_step [] i s)
  = if recognized (ExecutionStep.action s) then 1%nat else 0%nat.
Proof.
  destruct (recognized (ExecutionStep.action s)) eqn:Hrec.
  - unfold main_step.
    destruct (String.eqb_spec (ExecutionStep.action s) "click") as [_|Hc];
      [reflexivity|].
    destruct (bool_decide (ExecutionStep.action s ∈ ["type"; "fill"])) eqn:Hf;
      [reflexivity|].
    destruct (String.eqb_spec (ExecutionStep.action s) "navigate") as [_|Hn];
      [reflexivity|].
    destruct (String.eqb_spec (ExecutionStep.action s) "scroll") as [_|Hs];
      [reflexivity|].
    exfalso. unfold recognized in Hrec.
    apply bool_decide_eq_true in Hrec. apply bool_decide_eq_false in Hf.
    rewrite !elem_of_cons in Hrec. rewrite !elem_of_cons in Hf.
    pose proof (not_elem_of_nil (ExecutionStep.action s)) as Hnil. tauto.
  - now rewrite (main_step_unrecognized _ _ _ Hrec).
Qed.

(** X10. The main steps of a generated program hold exactly one block for
    each step whose action is click, type, fill, navigate or scroll, and
    nothing for the other steps: a log of n steps of which r are recognized
    yields r blocks. *)
Theorem one_block_per_recognized_step (i : nat) (log : list ExecutionStep.t) :
  length (blocks_from i log)
  = length (List.filter (fun s => recognized (ExecutionStep.action s)) log).
Proof.
  revert i. induction log as [|s log IH]; intros i; [reflexivity|].
  unfold blocks_from. cbn [for_enumerate List.filter].
  rewrite for_enumerate_main_step, length_app, main_step_length, IH.
  destruct (recognized (ExecutionStep.action s)); reflexivity.
Qed.

End GeneratorExtras.

(** ** The script library *)

Section LibraryExtras.

Import ScriptLibrary.

(** X11. The key is computed from the text url ":" task, so it cannot tell
    where the url ends: moving a colon-separated piece from the end of the
    url to the front of the task gives the same key, and a script saved for
    one pair is what [find] returns for the other. *)
Theorem key_does_not_separate_url_from_task
        (self : ScriptLibrary.t) (files : Os.Files) (u t1 t2 code : string) :
  _generate_id (u +:+ ":" +:+ t1) t2 = _generate_id u (t1 +:+ ":" +:+ t2)
  /\ find self (snd (save self files (u +:+ ":" +:+ t1) t2 code))
          u (t1 +:+ ":" +:+ t2)
     = Some (Os.universal_newlines code).
Proof.
  assert (_generate_id (u +:+ ":" +:+ t1) t2
          = _generate_id u (t1 +:+ ":" +:+ t2)) as Hid.
  { unfold _generate_id. now rewrite !string_app_assoc. }
  split; [exact Hid|].
  rewrite find_lookup. unfold save, Os.write_text, script_path_of. simpl.
  rewrite Hid. now rewrite lookup_insert_eq.
Qed.

Example port_in_url_or_in_task :
  _generate_id "https://example.com:8080/login" "submit the form"
  = _generate_id "https://example.com" "8080/login:submit the form".
Proof. vm_compute. reflexivity. Qed.

Lemma le_bytes_length (width : nat) (x : Z) :
  length (Hashlib.le_bytes width x) = width.
Proof. unfold Hashlib.le_bytes. now rewrite length_map, length_seq. Qed.

Lemma digest_length (msg : list Z) : length (Hashlib.digest msg) = 16%nat.
Proof.
  unfold Hashlib.digest.
  destruct (fold_left _ _ _) as [[[a b] c] d].
  now rewrite !length_app, !le_bytes_length.
Qed.

Lemma hex_length (bs : list Z) :
  String.length (Hashlib.hex bs) = (2 * length bs)%nat.
Proof.
  induction bs as [|b bs IH]; [reflexivity|].
  cbn [Hashlib.hex String.length length]. rewrite IH. lia.
Qed.

Lemma hex_digit_in_digits (d : Z) : In (Hashlib.hex_digit d) Hashlib.hex_digits.
Proof.
  unfold Hashlib.hex_digit.
  destruct (nth_in_or_default (Z.to_nat d) Hashlib.hex_digits "0"%char)
    as [Hin| ->]; [exact Hin | simpl; auto].
Qed.

Lemma hex_chars (bs : list Z) :
  Forall (fun c => In c Hashlib.hex_digits)
         (list_ascii_of_string (Hashlib.hex bs)).
Proof.
  induction bs as [|b bs IH]; [constructor|].
  cbn [Hashlib.hex list_ascii_of_string].
  constructor; [apply hex_digit_in_digits|].
  constructor; [apply hex_digit_in_digits|exact IH].
Qed.

Lemma substring_length (n : nat) (s : string) :
  String.length (String.substring 0 n s) = Nat.min n (String.length s).
Proof.
  revert s. induction n as [|n IH]; intros [|c s]; simpl; auto.
Qed.

Lemma substring_chars (P : ascii -> Prop) (n : nat) (s : string) :
  Forall P (list_ascii_of_string s) ->
  Forall P (list_ascii_of_string (String.substring 0 n s)).
Proof.
  revert s. induction n as [|n IH]; intros [|c s] H; simpl; try constructor.
  - now inversion H.
  - apply IH. now inversion H.
Qed.

(** X12. Every key is made of exactly twelve lower-case hexadecimal
    digits, whatever the url and the task hold: a script file name can
    never contain a path separator or leave the library directory. *)
Theorem generate_id_is_twelve_hex_digits (url task : string) :
  String.length (_generate_id url task) = 12%nat
  /\ Forall (fun c => In c Hashlib.hex_digits)
            (list_ascii_of_string (_generate_id url task)).
Proof.
  unfold _generate_id, Hashlib.md5_hexdigest. split.
  - rewrite substring_length, hex_length, digest_length. reflexivity.
  - apply substring_chars, hex_chars.
Qed.

(** X13. Saving under another key does not disturb an entry: [find] of a
    pair gives the same answer before and after a [save] whose key differs,
    and two saves under different keys leave the same files in either
    order. *)
Theorem saves_under_other_keys_do_not_interfere
        (self : ScriptLibrary.t) (files : Os.Files)
        (u t code u' t' code' : string) :
  _generate_id u' t' <> _generate_id u t ->
  find self (snd (save self files u' t' code')) u t = find self files u t
  /\ snd (save self (snd (save self files u t code)) u' t' code')
     = snd (save self (snd (save self files u' t' code')) u t code).
Proof.
  intros Hne. split; [now apply find_save_other|].
  unfold save, Os.write_text. simpl.
  apply insert_insert_ne.
  intros Heq. apply Hne. symmetry. now apply script_path_inj in Heq.
Qed.

Lemma saves_under_other_keys_do_not_interfere_witness :
  find ScriptLibrary.default
       (snd (save ScriptLibrary.default
                  (IntelligentBrowserAutomation.files Examples.cached_world)
                  "https://news.ycombinator.com"
                  "Find the title of the top post" "print('top post')"))
       Examples.example_url Examples.example_task
  = find ScriptLibrary.default
         (IntelligentBrowserAutomation.files Examples.cached_world)
         Examples.example_url Examples.example_task.
Proof.
  apply (saves_under_other_keys_do_not_interfere
           ScriptLibrary.default
           (IntelligentBrowserAutomation.files Examples.cached_world)
           Examples.example_url Examples.example_task Examples.program_lf
           "https://news.ycombinator.com" "Find the title of the top post"
           "print('top post')").
  vm_compute. discriminate.
Defined.

End LibraryExtras.

(** ** The orchestrator *)

Section OrchestratorExtras.

Import IntelligentBrowserAutomation.

Variable env : Env.
Variable script_library : ScriptLibrary.t.

(** X14. A cached script that fails (non-zero exit status or time-out) is
    never surfaced: [execute] goes on with the exploration exactly as on a
    miss, from the world the failed run left; if the exploration fails too,
    the caller gets EXPLORATION_FAILED with the engine's error, and the
    script's own error is lost. *)
Theorem failing_cached_script_is_not_surfaced
        (w w' : World) (url task script message : string)
        (e : ExplorationResult.t) :
  ScriptLibrary.find script_library (files w) url task = Some script ->
  Py.truthy script = true ->
  _execute_script env w script = (Raise message, w') ->
  execute env script_library w url task
  = explore_and_route env script_library w' url task
  /\ (explore_task env url task = Return e ->
      ExplorationResult.success e = false ->
      execute env script_library w url task
      = (Return (PyExecutionResult
                   (ExecutionResult.mk false "EXPLORATION_FAILED" None
                      None None None (ExplorationResult.error e) None None)),
         w')).
Proof.
  intros Hfind Htruthy Hrun.
  assert (execute env script_library w url task
          = explore_and_route env script_library w' url task) as Hexec.
  { unfold execute. now rewrite Hfind, Htruthy, Hrun. }
  split; [exact Hexec|].
  intros He Hs. rewrite Hexec. now apply explore_and_route_failure.
Qed.

(** X15. When the analysis recommends BROWSER_USE, [execute] hands the
    task to the adaptive executor together with the trace and returns its
    outcome unchanged; no script is generated, no file is written and no
    UUID is drawn: the world is left as it was. *)
Theorem browser_use_route_leaves_the_world_alone
        (w : World) (url task : string) (e : ExplorationResult.t) :
  ScriptLibrary.find script_library (files w) url task = None ->
  explore_task env url task = Return e ->
  ExplorationResult.success e = true ->
  RepeatabilityScore.recommendation (RepeatabilityAnalyzer.analyze e)
  = "BROWSER_USE" ->
  execute env script_library w url task
  = (match execute_non_repeatable env url task (Some e) with
     | Return r => Return (PyExecutionResult r)
     | Raise message => Raise message
     end, w).
Proof.
  intros Hmiss He Hs Hrec.
  rewrite (execute_on_miss _ _ _ _ _ Hmiss).
  unfold explore_and_route. rewrite He, Hs, Hrec. cbn [negb String.eqb].
  unfold _execute_with_browser_use, lift.
  now destruct (execute_non_repeatable env url task (Some e)).
Qed.

End OrchestratorExtras.

Lemma failing_cached_script_is_not_surfaced_witness :
  IntelligentBrowserAutomation.execute
    OrchestratorExamples.broken_env ScriptLibrary.default Examples.cached_world
    Examples.example_url Examples.example_task
  = IntelligentBrowserAutomation.explore_and_route
      OrchestratorExamples.broken_env ScriptLibrary.default
      (snd (IntelligentBrowserAutomation._execute_script
              OrchestratorExamples.broken_env Examples.cached_world
              Examples.program_lf))
      Examples.example_url Examples.example_task.
Proof.
  refine (proj1 (failing_cached_script_is_not_surfaced
           OrchestratorExamples.broken_env ScriptLibrary.default
           Examples.cached_world
           (snd (IntelligentBrowserAutomation._execute_script
                   OrchestratorExamples.broken_env Examples.cached_world
                   Examples.program_lf))
           Examples.example_url Examples.example_task Examples.program_lf
           "Script failed: Traceback (most recent call last)"
           Examples.failed_exploration _ _ _)).
  - vm_compute. reflexivity.
  - reflexivity.
  - reflexivity.
Defined.

Lemma browser_use_route_leaves_the_world_alone_witness :
  IntelligentBrowserAutomation.execute
    OrchestratorExamples.judgement_env ScriptLibrary.default Examples.empty_world
    Examples.example_url Examples.example_task
  = (Return (PyExecutionResult OrchestratorExamples.adaptive_result),
     Examples.empty_world).
Proof.
  apply (browser_use_route_leaves_the_world_alone
           OrchestratorExamples.judgement_env ScriptLibrary.default
           Examples.empty_world Examples.example_url Examples.example_task
           (Examples.with_decisions 6)).
  - vm_compute. reflexivity.
  - reflexivity.
  - reflexivity.
  - reflexivity.
Defined.

Section OrchestratorExtras2.

Import IntelligentBrowserAutomation.

Variable env : Env.
Variable script_library : ScriptLibrary.t.




(** X17. As long as the adaptive executor returns (with success or
    failure) rather than raising, the hybrid path is the script path: a
    HYBRID recommendation is executed exactly like a SCRIPT one. *)
Theorem hybrid_is_the_script_path
        (w : World) (url task : string) (e : ExplorationResult.t) :
  (forall u t x, exists r, execute_non_repeatable env u t x = Return r) ->
  _execute_hybrid env script_library w e url task
  = _execute_with_script env script_library w e url task.
Proof.
  intros Hret. unfold _execute_hybrid.
  destruct (_execute_with_script env script_library w e url task)
    as [[r|message] w'] eqn:Hws; [reflexivity|].
  exfalso. unfold _execute_with_script in Hws.
  destruct (fresh_hex8 env w) as [hex8 w1].
  destruct (_execute_script _ _ _) as [[result|msg] w2].
  - discriminate Hws.
  - unfold _execute_with_browser_use in Hws.
    destruct (Hret url task (Some e)) as [r Hr]. rewrite Hr in Hws.
    discriminate Hws.
Qed.

(** What a run of [execute] can report as its method. *)
Lemma with_script_methods (w w' : World) (url task : string)
      (e : ExplorationResult.t) (r : ExecutionResult.t) :
  (forall u t x r', execute_non_repeatable env u t x = Return r' ->
                    ExecutionResult.method r' = "BROWSER_USE") ->
  _execute_with_script env script_library w e url task = (Return r, w') ->
  ExecutionResult.method r = "SCRIPT"
  \/ ExecutionResult.method r = "BROWSER_USE".
Proof.
  intros Hex Hws. unfold _execute_with_script in Hws.
  destruct (fresh_hex8 env w) as [hex8 w1].
  destruct (_execute_script _ _ _) as [[result|msg] w2].
  - inversion Hws. left. reflexivity.
  - unfold _execute_with_browser_use in Hws.
    destruct (execute_non_repeatable env url task (Some e)) as [r'|m] eqn:Hr;
      inversion Hws; subst. right. now apply (Hex _ _ _ _ Hr).
Qed.

(** X19. Whatever [execute] returns as an execution result carries the
    method SCRIPT, EXPLORATION_FAILED or the method of the adaptive
    executor; with an executor that reports BROWSER_USE, as the package's
    own does, the method HYBRID is never reported, also for tasks routed
    through the hybrid path. *)
Theorem execute_never_reports_hybrid
        (w w' : World) (url task : string) (r : ExecutionResult.t) :
  (forall u t x r', execute_non_repeatable env u t x = Return r' ->
                    ExecutionResult.method r' = "BROWSER_USE") ->
  execute env script_library w url task = (Return (PyExecutionResult r), w') ->
  ExecutionResult.method r = "SCRIPT"
  \/ ExecutionResult.method r = "BROWSER_USE"
  \/ ExecutionResult.method r = "EXPLORATION_FAILED".
Proof.
  intros Hex Hexec.
  assert (forall w0,
             explore_and_route env script_library w0 url task
             = (Return (PyExecutionResult r), w') ->
             ExecutionResult.method r = "SCRIPT"
             \/ ExecutionResult.method r = "BROWSER_USE"
             \/ ExecutionResult.method r = "EXPLORATION_FAILED") as Hroute.
  { intros w0 H. unfold explore_and_route in H.
    destruct (explore_task env url task) as [e|m]; [|discriminate H].
    destruct (ExplorationResult.success e); cbn [negb] in H.
    - destruct (String.eqb _ "SCRIPT").
      + unfold lift in H.
        destruct (_execute_with_script _ _ _ _ _ _) as [[r0|m] w1] eqn:Hws;
          inversion H; subst.
        destruct (with_script_methods _ _ _ _ _ _ Hex Hws); auto.
      + destruct (String.eqb _ "BROWSER_USE").
        * unfold lift, _execute_with_browser_use in H.
          destruct (execute_non_repeatable env url task (Some e))
            as [r0|m] eqn:Hr; inversion H; subst.
          right. left. now apply (Hex _ _ _ _ Hr).
        * unfold lift, _execute_hybrid in H.
          destruct (_execute_with_script _ _ _ _ _ _) as [[r0|m] w1] eqn:Hws.
          -- inversion H; subst.
             destruct (with_script_methods _ _ _ _ _ _ Hex Hws); auto.
          -- unfold _execute_with_browser_use in H.
             destruct (execute_non_repeatable env url task (Some e))
               as [r0|m0] eqn:Hr; inversion H; subst.
             right. left. now apply (Hex _ _ _ _ Hr).
    - inversion H. right. right. reflexivity. }
  unfold execute in Hexec.
  destruct (ScriptLibrary.find _ _ _ _) as [script|]; [|eauto].
  destruct (Py.truthy script); [|eauto].
  destruct (_execute_script env w script) as [[result|m] w1]; [|eauto].
  inversion Hexec.
Qed.

End OrchestratorExtras2.



Lemma hybrid_is_the_script_path_witness :
  IntelligentBrowserAutomation._execute_hybrid
    Examples.example_env ScriptLibrary.default Examples.empty_world
    Examples.trace_four Examples.example_url Examples.example_task
  = IntelligentBrowserAutomation._execute_with_script
      Examples.example_env ScriptLibrary.default Examples.empty_world
      Examples.trace_four Examples.example_url Examples.example_task.
Proof.
  apply (hybrid_is_the_script_path Examples.example_env ScriptLibrary.default).
  intros u t x. eexists. reflexivity.
Defined.

Lemma execute_never_reports_hybrid_witness :
  ExecutionResult.method OrchestratorExamples.adaptive_result = "SCRIPT"
  \/ ExecutionResult.method OrchestratorExamples.adaptive_result = "BROWSER_USE"
  \/ ExecutionResult.method OrchestratorExamples.adaptive_result
     = "EXPLORATION_FAILED".
Proof.
  apply (execute_never_reports_hybrid
           OrchestratorExamples.judgement_env ScriptLibrary.default
           Examples.empty_world Examples.empty_world
           Examples.example_url Examples.example_task).
  - intros u t x r' H. cbn in H. inversion H. reflexivity.
  - vm_compute. reflexivity.
Defined.

Section DefaultLibrary.

Import IntelligentBrowserAutomation.






End DefaultLibrary.


(** ** The explorer *)

Section ExplorerExtras.

Import LLMExplorer.

(** X20. Of the providers [__init__] accepts, only browser-use can
    explore. For gpt4 and gemini the fall-back to browser-use reads
    [self.llm['browser']], a key their dictionary does not have, so
    [explore_task] raises KeyError ('browser') before any agent is built;
    for grok it raises NotImplementedError. With browser-use the agent is
    built and run on the exploration prompt. There is no fifth case:
    [__init__] returns for these four providers only. *)
Theorem only_browser_use_can_explore
        (provider : string) (self : LLMExplorer.t)
        (env : Agent.Env) (url task : string) :
  __init__ provider = Return self ->
  (provider = "browser-use"
   /\ explore_task self env url task
      = match Agent.create_and_run env (exploration_prompt url task) with
        | Raise e => Raise e
        | Return (Return history) => Return (result_of_history env history)
        | Return (Raise e) => Return (result_of_exception e)
        end)
  \/ (provider ∈ ["gpt4"; "gemini"]
      /\ explore_task self env url task = Raise "'browser'")
  \/ (provider = "grok"
      /\ explore_task self env url task
         = Raise "Explorer for grok not implemented").
Proof.
  unfold __init__, _initialize_llm. intros H.
  destruct (String.eqb_spec provider "browser-use") as [->|_].
  { left. inversion H; subst self. split; [reflexivity|].
    unfold explore_task, _explore_with_browser_use.
    change (llm _ !! "type") with (Some (CStr "browser-use")).
    cbn [component_eq_str String.eqb Ascii.eqb Bool.eqb].
    reflexivity. }
  destruct (String.eqb_spec provider "gpt4") as [->|_].
  { right; left. inversion H; subst self.
    split; [apply elem_of_cons; now left | vm_compute; reflexivity]. }
  destruct (String.eqb_spec provider "gemini") as [->|_].
  { right; left. inversion H; subst self.
    split; [apply elem_of_cons; right; apply elem_of_cons; now left
           | vm_compute; reflexivity]. }
  destruct (String.eqb_spec provider "grok") as [->|_].
  { right; right. inversion H; subst self.
    split; [reflexivity | vm_compute; reflexivity]. }
  discriminate H.
Qed.

Lemma only_browser_use_can_explore_witness :
  exists self,
    __init__ "gemini" = Return self
    /\ explore_task self (ExplorerExamples.agents_returning
                            ExplorerExamples.quiet_history)
                    Examples.example_url Examples.example_task
       = Raise "'browser'".
Proof.
  eexists. split; [reflexivity|].
  destruct (only_browser_use_can_explore
              "gemini" _
              (ExplorerExamples.agents_returning ExplorerExamples.quiet_history)
              Examples.example_url Examples.example_task eq_refl)
    as [[Hp _]|[[_ He]|[Hp _]]].
  - discriminate Hp.
  - exact He.
  - discriminate Hp.
Defined.

End ExplorerExtras.

Section ExplorerExtras2.

Import LLMExplorer.

Lemma imap_step_numbers {A : Type} (f : nat -> A -> ExecutionStep.t)
      (g : nat -> Z) (l : list A) :
  (forall i x, ExecutionStep.step_number (f i x) = g i) ->
  map ExecutionStep.step_number (imap f l) = map g (seq 0 (length l)).
Proof.
  revert f g. induction l as [|x l IH]; intros f g Hf; [reflexivity|].
  cbn [imap map length seq]. rewrite Hf. f_equal.
  rewrite (IH (f ∘ S) (g ∘ S)) by (intros; apply Hf).
  rewrite <- seq_shift, map_map. reflexivity.
Qed.

Lemma explored_cases (self : LLMExplorer.t) (env : Agent.Env)
      (url task : string) (r : ExplorationResult.t) :
  _explore_with_browser_use self env url task = Return r ->
  (exists history, r = result_of_history env history)
  \/ (exists e, r = result_of_exception e).
Proof.
  unfold _explore_with_browser_use. intros H.
  destruct (llm self !! "browser"); [|discriminate H].
  destruct (llm self !! "llm"); [|discriminate H].
  destruct (Agent.create_and_run env _) as [[history|e]|e];
    inversion H; eauto.
Qed.

(** X21. Whatever the agent did, an exploration result returned by
    [_explore_with_browser_use] has no decision point, at most one
    obstacle, which is then a cookie banner of likelihood 0.9, and steps
    numbered 1, 2, 3, ... in order; when the run raised, the result is
    unsuccessful, has no step, and carries the text of the exception. *)
Theorem explored_result_shape (self : LLMExplorer.t) (env : Agent.Env)
        (url task : string) (r : ExplorationResult.t) :
  _explore_with_browser_use self env url task = Return r ->
  ExplorationResult.decisions r = []
  /\ (ExplorationResult.obstacles r = []
      \/ ExplorationResult.obstacles r
         = [Obstacle.mk "cookie_banner" 0.9%float "click_accept" (Some 1)])
  /\ map ExecutionStep.step_number (ExplorationResult.journey_log r)
     = map (fun i => Z.of_nat i + 1)
           (seq 0 (length (ExplorationResult.journey_log r)))
  /\ (ExplorationResult.error r <> None ->
      ExplorationResult.success r = false
      /\ ExplorationResult.journey_log r = []).
Proof.
  intros H. destruct (explored_cases _ _ _ _ _ H) as [[history ->]|[e ->]].
  - unfold result_of_history. cbn [ExplorationResult.decisions
      ExplorationResult.obstacles ExplorationResult.journey_log
      ExplorationResult.error ExplorationResult.success].
    split; [reflexivity|]. split.
    { destruct (existsb _ _); auto. }
    split.
    { rewrite length_imap. now apply imap_step_numbers. }
    intros Herr. now elim Herr.
  - cbn. repeat split; auto.
Qed.

(** X22. Hence the analyzer always finds the obstacles predictable and the
    decisions rule-based in a trace that comes from the explorer: such a
    trace scores at least 2, the penalty for decisions that need
    interpretation is never applied, and a successful exploration of fewer
    than 30 steps is never routed to BROWSER_USE. *)
Theorem explored_trace_analysis (self : LLMExplorer.t) (env : Agent.Env)
        (url task : string) (r : ExplorationResult.t) :
  _explore_with_browser_use self env url task = Return r ->
  RepeatabilityScore.predictable_obstacles (RepeatabilityAnalyzer.analyze r) = true
  /\ RepeatabilityScore.rule_based_decisions (RepeatabilityAnalyzer.analyze r) = true
  /\ 2 <= RepeatabilityScore.score (RepeatabilityAnalyzer.analyze r)
  /\ (ExplorationResult.success r = true ->
      (length (ExplorationResult.journey_log r) < 30)%nat ->
      RepeatabilityScore.recommendation (RepeatabilityAnalyzer.analyze r)
      <> "BROWSER_USE").
Proof.
  intros H.
  assert (RepeatabilityAnalyzer.are_decisions_rule_based
            (ExplorationResult.decisions r) = true
          /\ RepeatabilityAnalyzer.are_obstacles_predictable
               (ExplorationResult.obstacles r) = true
          /\ (3 <? length (ExplorationResult.decisions r))%nat = false)
    as (Hrb & Hobs & Hdec).
  { destruct (explored_cases _ _ _ _ _ H) as [[history ->]|[e ->]].
    - unfold result_of_history. cbn [ExplorationResult.decisions
        ExplorationResult.obstacles].
      split; [reflexivity|]. split; [|reflexivity].
      destruct (existsb _ _); reflexivity.
    - cbn. auto. }
  destruct (analyze_flags r) as (_ & Hfo & Hfr & _).
  destruct (analyze_fields r) as (Hrec & _ & _).
  pose proof (analyze_score r) as Hscore.
  rewrite Hrb, Hobs in Hscore. unfold contribution in Hscore.
  rewrite Hfo, Hfr, Hobs, Hrb.
  split; [reflexivity|]. split; [reflexivity|]. split.
  - rewrite Hscore.
    destruct (RepeatabilityAnalyzer.are_steps_deterministic _),
      (RepeatabilityAnalyzer.is_dom_stable _),
      (RepeatabilityAnalyzer.has_dynamic_content _); lia.
  - intros Hs Hlen. rewrite Hrec.
    assert (3 <= RepeatabilityScore.score (RepeatabilityAnalyzer.analyze r))
      as H3.
    { rewrite Hscore. unfold RepeatabilityAnalyzer.is_dom_stable.
      rewrite Hs. apply Nat.ltb_lt in Hlen. rewrite Hlen. cbn [andb].
      destruct (RepeatabilityAnalyzer.are_steps_deterministic _),
        (RepeatabilityAnalyzer.has_dynamic_content _); lia. }
    unfold RepeatabilityAnalyzer.get_recommendation.
    destruct (7 <=? _)%Z; [discriminate|].
    destruct (Z.leb_spec 3 (RepeatabilityScore.score
                              (RepeatabilityAnalyzer.analyze r)));
      [discriminate | lia].
Qed.

(** X23. [_calculate_repeatability] always lies between 0.2 and 0.8: the
    adjustments of 0.1 and 0.2 around 0.5 never reach the bounds 0.0 and
    1.0 it clamps to. *)
Theorem calculate_repeatability_range
        (journey_log : list ExecutionStep.t) (obstacles : list Obstacle.t)
        (decisions : list DecisionPoint.t) :
  PrimFloat.leb 0.2%float
                (_calculate_repeatability journey_log obstacles decisions) = true
  /\ PrimFloat.leb (_calculate_repeatability journey_log obstacles decisions)
                   0.8%float = true.
Proof.
  unfold _calculate_repeatability.
  destruct (20 <? length journey_log)%nat, (length journey_log <? 10)%nat,
    ((0 <? length obstacles)%nat && forallb _ obstacles),
    (5 <? length decisions)%nat; split; vm_compute; reflexivity.
Qed.

End ExplorerExtras2.

Lemma explored_result_shape_witness :
  ExplorationResult.decisions
    (LLMExplorer.result_of_history
       (ExplorerExamples.agents_returning ExplorerExamples.quiet_history)
       ExplorerExamples.quiet_history) = []
  /\ map ExecutionStep.step_number
         (ExplorationResult.journey_log
            (LLMExplorer.result_of_history
               (ExplorerExamples.agents_returning ExplorerExamples.quiet_history)
               ExplorerExamples.quiet_history))
     = [1; 2].
Proof.
  pose proof (explored_result_shape
                ExplorerExamples.browser_use_explorer
                (ExplorerExamples.agents_returning ExplorerExamples.quiet_history)
                Examples.example_url Examples.example_task _ eq_refl)
    as (Hd & _ & Hn & _).
  split; [exact Hd | exact Hn].
Defined.

Lemma explored_trace_analysis_witness :
  2 <= RepeatabilityScore.score
         (RepeatabilityAnalyzer.analyze
            (LLMExplorer.result_of_history
               (ExplorerExamples.agents_returning ExplorerExamples.quiet_history)
               ExplorerExamples.quiet_history)).
Proof.
  pose proof (explored_trace_analysis
                ExplorerExamples.browser_use_explorer
                (ExplorerExamples.agents_returning ExplorerExamples.quiet_history)
                Examples.example_url Examples.example_task _ eq_refl)
    as (_ & _ & Hs & _).
  exact Hs.
Defined.

Section ExplorerExtras3.

Import LLMExplorer.

Lemma imap_actions {A : Type} (f : nat -> A -> ExecutionStep.t)
      (g : A -> string) (l : list A) :
  (forall i x, ExecutionStep.action (f i x) = g x) ->
  map ExecutionStep.action (imap f l) = map g l.
Proof.
  revert f. induction l as [|x l IH]; intros f Hf; [reflexivity|].
  cbn [imap map]. rewrite Hf. f_equal. apply IH. intros; apply Hf.
Qed.

Lemma no_pattern_not_deterministic (log : list ExecutionStep.t) :
  (forall a, a ∈ map ExecutionStep.action log ->
             a ∉ RepeatabilityAnalyzer.common_patterns) ->
  RepeatabilityAnalyzer.are_steps_deterministic log = false.
Proof.
  intros Hno. unfold RepeatabilityAnalyzer.are_steps_deterministic.
  destruct (length log =? 0)%nat; [reflexivity|].
  destruct (PrimFloat.ltb _ _); [reflexivity|].
  apply existsb_false_iff. intros a Ha.
  apply bool_decide_eq_false. intros Hin.
  apply (Hno a Hin). now apply list_elem_of_In.
Qed.

(** X24. The explorer names a step by the value its action dictionary
    holds under the key action, and unknown when there is none. So when no
    dictionary of the history holds one of navigate, click, type, extract
    under that key, the steps never count as deterministic and the trace is
    never routed to SCRIPT, however the run went. *)
Theorem explored_trace_without_action_names_is_never_scripted
        (env : Agent.Env) (history : Agent.History) :
  (forall d v, d ∈ Agent.model_actions history ->
               d !! "action" = Some v ->
               v ∉ RepeatabilityAnalyzer.common_patterns) ->
  map ExecutionStep.action
      (ExplorationResult.journey_log (result_of_history env history))
  = map (fun d => dict_get_default d "action" "unknown")
        (Agent.model_actions history)
  /\ RepeatabilityScore.deterministic_steps
       (RepeatabilityAnalyzer.analyze (result_of_history env history)) = false
  /\ RepeatabilityScore.score
       (RepeatabilityAnalyzer.analyze (result_of_history env history)) <= 6
  /\ RepeatabilityScore.recommendation
       (RepeatabilityAnalyzer.analyze (result_of_history env history))
     <> "SCRIPT".
Proof.
  intros Hno.
  assert (map ExecutionStep.action
              (ExplorationResult.journey_log (result_of_history env history))
          = map (fun d => dict_get_default d "action" "unknown")
                (Agent.model_actions history)) as Hactions.
  { unfold result_of_history. cbn [ExplorationResult.journey_log].
    now apply imap_actions. }
  assert (RepeatabilityAnalyzer.are_steps_deterministic
            (ExplorationResult.journey_log (result_of_history env history))
          = false) as Hdet.
  { apply no_pattern_not_deterministic. rewrite Hactions.
    intros a Ha. apply list_elem_of_fmap in Ha as (d & -> & Hd).
    unfold dict_get_default.
    destruct (d !! "action") as [v|] eqn:Hv.
    - exact (Hno d v Hd Hv).
    - unfold RepeatabilityAnalyzer.common_patterns.
      rewrite !not_elem_of_cons. repeat split; try discriminate.
      apply not_elem_of_nil. }
  destruct (analyze_flags (result_of_history env history)) as (Hfd & _).
  destruct (analyze_fields (result_of_history env history)) as (Hrec & _).
  pose proof (analyze_score (result_of_history env history)) as Hscore.
  rewrite Hdet in Hscore. unfold contribution in Hscore.
  assert (RepeatabilityScore.score
            (RepeatabilityAnalyzer.analyze (result_of_history env history))
          <= 6) as H6.
  { rewrite Hscore.
    destruct (RepeatabilityAnalyzer.are_obstacles_predictable _),
      (RepeatabilityAnalyzer.are_decisions_rule_based _),
      (RepeatabilityAnalyzer.is_dom_stable _),
      (RepeatabilityAnalyzer.has_dynamic_content _); lia. }
  split; [exact Hactions|]. split; [now rewrite Hfd|]. split; [exact H6|].
  rewrite Hrec. intros Hs. apply get_recommendation_script_iff in Hs. lia.
Qed.

End ExplorerExtras3.

Lemma explored_trace_without_action_names_is_never_scripted_witness :
  map ExecutionStep.action
      (ExplorationResult.journey_log
         (LLMExplorer.result_of_history
            (ExplorerExamples.agents_returning ExplorerExamples.quiet_history)
            ExplorerExamples.quiet_history))
  = ["unknown"; "unknown"].
Proof.
  refine (proj1 (explored_trace_without_action_names_is_never_scripted
                   (ExplorerExamples.agents_returning
                      ExplorerExamples.quiet_history)
                   ExplorerExamples.quiet_history _)).
  intros d v Hd Hv. exfalso.
  cbn [ExplorerExamples.quiet_history Agent.model_actions] in Hd.
  apply elem_of_cons in Hd as [->|Hd].
  - discriminate Hv.
  - apply list_elem_of_singleton in Hd as ->. vm_compute in Hv. discriminate Hv.
Defined.

(** ** The adaptive executor *)

Section ExecutorExtras.

Import BrowserUseExecutor.

Lemma occurs_in_join (sep x : string) (parts : list string) :
  x ∈ parts -> occurs_in x (Py.join sep parts).
Proof.
  induction parts as [|p [|p' rest] IH]; intros Hx.
  - now apply elem_of_nil in Hx.
  - apply list_elem_of_singleton in Hx as ->. exists EmptyString, EmptyString.
    clear. induction p as [|c p IHp]; [reflexivity|].
    change (String c p = String c (p +:+ EmptyString)). now f_equal.
  - change (Py.join sep (p :: p' :: rest))
      with (p +:+ sep +:+ Py.join sep (p' :: rest)).
    apply elem_of_cons in Hx as [->|Hx].
    + apply occurs_in_here.
    + apply occurs_in_app_r, occurs_in_app_r, IH, Hx.
Qed.

(** X25. The task text the executor builds from an exploration starts
    with the caller's task and ends with the closing sentence; every
    obstacle type of the exploration occurs in it; and it is never the
    caller's task itself. *)
Theorem enhanced_task_keeps_task_and_names_obstacles
        (task : string) (exploration : ExplorationResult.t) :
  (exists hints,
      _enhance_task_with_exploration task exploration
      = task +:+ hints +:+ "

Work carefully and handle any obstacles you encounter.")
  /\ (forall o, o ∈ ExplorationResult.obstacles exploration ->
                occurs_in (Obstacle.type o)
                          (_enhance_task_with_exploration task exploration))
  /\ _enhance_task_with_exploration task exploration <> task.
Proof.
  unfold _enhance_task_with_exploration.
  set (hints_text := if (0 <? _)%nat then _ else _).
  split; [|split].
  - eexists. rewrite <- (string_app_assoc _ hints_text). reflexivity.
  - intros o Ho.
    destruct (ExplorationResult.obstacles exploration) as [|o1 l] eqn:Hobs;
      [now apply elem_of_nil in Ho|].
    apply occurs_in_app_r, occurs_in_app_l, occurs_in_app_r.
    apply occurs_in_join, list_elem_of_fmap. now exists o.
  - intros H. apply (f_equal String.length) in H.
    rewrite !string_length_app in H. cbn [String.length] in H. lia.
Qed.

End ExecutorExtras.

Section WiredExtras.

Import IntelligentBrowserAutomation.

Variable explorer : LLMExplorer.t.
Variables explorer_agents executor_agents : Agent.Env.
Variable subprocess_run_python : Os.Files -> string -> Outcome CompletedProcess.t.
Variable uuid4_hex : nat -> string.
Variable datetime_now_isoformat : string.
Variable script_library : ScriptLibrary.t.

(** X26. In the orchestrator as its constructor wires it, a task routed to
    BROWSER_USE is given to an agent whose prompt is the task enhanced with
    the trace (the URL is not passed on). An exception of the agent's run
    is not propagated: it comes back as an unsuccessful result of method
    BROWSER_USE carrying the exception text. Only a failure to build the
    agent is raised. *)
Theorem wired_browser_use_route
        (w : World) (url task : string) (e : ExplorationResult.t) :
  ScriptLibrary.find script_library (files w) url task = None ->
  LLMExplorer.explore_task explorer explorer_agents url task = Return e ->
  ExplorationResult.success e = true ->
  RepeatabilityScore.recommendation (RepeatabilityAnalyzer.analyze e)
  = "BROWSER_USE" ->
  execute (Wiring.env_of explorer explorer_agents executor_agents
                         subprocess_run_python uuid4_hex
                         datetime_now_isoformat)
          script_library w url task
  = (match Agent.create_and_run
             executor_agents
             (BrowserUseExecutor._enhance_task_with_exploration task e) with
     | Raise message => Raise message
     | Return (Return history) =>
         Return (PyExecutionResult
                   (ExecutionResult.mk
                      (Agent.is_successful history) "BROWSER_USE"
                      (Agent.final_result history)
                      (Some (Agent.number_of_steps history))
                      (Some (Agent.total_duration_seconds history))
                      None None None
                      (Some (Agent.action_names history))))
     | Return (Raise message) =>
         Return (PyExecutionResult
                   (ExecutionResult.mk false "BROWSER_USE" None None None None
                                       (Some message) None None))
     end, w).
Proof.
  intros Hmiss He Hs Hrec.
  rewrite (execute_on_miss _ _ _ _ _ Hmiss).
  unfold explore_and_route, Wiring.env_of.
  cbn [explore_task IntelligentBrowserAutomation.execute_non_repeatable].
  rewrite He, Hs, Hrec. cbn [negb String.eqb].
  unfold _execute_with_browser_use, lift.
  cbn [IntelligentBrowserAutomation.execute_non_repeatable].
  unfold BrowserUseExecutor.execute_non_repeatable,
    BrowserUseExecutor.enhanced_task_of. rewrite Hs.
  now destruct (Agent.create_and_run executor_agents _) as [[history|m]|m].
Qed.

End WiredExtras.

Lemma wired_browser_use_route_witness :
  fst (IntelligentBrowserAutomation.execute
         (Wiring.env_of ExplorerExamples.browser_use_explorer
                        (ExplorerExamples.agents_returning
                           ExplorerExamples.long_history)
                        (ExplorerExamples.agents_raising "browser crashed")
                        Examples.interpreter_ok (fun _ => "0123456789abcdef")
                        "2024-01-01T00:00:00")
         ScriptLibrary.default Examples.empty_world
         Examples.example_url Examples.example_task)
  = Return (PyExecutionResult
              (ExecutionResult.mk false "BROWSER_USE" None None None None
                                  (Some "browser crashed") None None)).
Proof.
  rewrite (wired_browser_use_route
             ExplorerExamples.browser_use_explorer
             (ExplorerExamples.agents_returning ExplorerExamples.long_history)
             (ExplorerExamples.agents_raising "browser crashed")
             Examples.interpreter_ok (fun _ => "0123456789abcdef")
             "2024-01-01T00:00:00" ScriptLibrary.default Examples.empty_world
             Examples.example_url Examples.example_task
             (LLMExplorer.result_of_history
                (ExplorerExamples.agents_returning ExplorerExamples.long_history)
                ExplorerExamples.long_history)).
  - reflexivity.
  - vm_compute; reflexivity.
  - vm_compute; reflexivity.
  - reflexivity.
  - vm_compute; reflexivity.
Defined.

Section UnimplementedExplorers.

Import IntelligentBrowserAutomation.

(** X27. Hence an orchestrator constructed with the provider gpt4, gemini
    or grok cannot serve any task that is not already in the library: its
    [execute] raises the explorer's exception, and the world is left as it
    was. *)
Theorem unimplemented_explorer_fails_every_uncached_task
        (provider : string) (explorer : LLMExplorer.t)
        (explorer_agents executor_agents : Agent.Env)
        (subprocess_run_python : Os.Files -> string -> Outcome CompletedProcess.t)
        (uuid4_hex : nat -> string) (datetime_now_isoformat : string)
        (script_library : ScriptLibrary.t)
        (w : World) (url task : string) :
  provider ∈ ["gpt4"; "gemini"; "grok"] ->
  LLMExplorer.__init__ provider = Return explorer ->
  ScriptLibrary.find script_library (files w) url task = None ->
  exists message,
    execute (Wiring.env_of explorer explorer_agents executor_agents
                           subprocess_run_python uuid4_hex
                           datetime_now_isoformat)
            script_library w url task
    = (Raise message, w).
Proof.
  intros Hp Hinit Hmiss.
  rewrite (execute_on_miss _ _ _ _ _ Hmiss).
  unfold explore_and_route, Wiring.env_of. cbn [explore_task].
  rewrite !elem_of_cons in Hp.
  destruct Hp as [->|[->|[->|Hp]]]; [| | |now apply elem_of_nil in Hp];
    inversion Hinit; subst explorer; eexists; vm_compute; reflexivity.
Qed.

End UnimplementedExplorers.

Lemma unimplemented_explorer_fails_every_uncached_task_witness :
  exists message,
    IntelligentBrowserAutomation.execute
      (Wiring.env_of (LLMExplorer.mk "grok"
                        (<["type" := LLMExplorer.CStr "grok"]>
                         (<["client" := LLMExplorer.CNone]> ∅)))
                     (ExplorerExamples.agents_returning
                        ExplorerExamples.quiet_history)
                     (ExplorerExamples.agents_returning
                        ExplorerExamples.quiet_history)
                     Examples.interpreter_ok (fun _ => "0123456789abcdef")
                     "2024-01-01T00:00:00")
      ScriptLibrary.default Examples.empty_world
      Examples.example_url Examples.example_task
    = (Raise message, Examples.empty_world).
Proof.
  apply (unimplemented_explorer_fails_every_uncached_task "grok").
  - repeat constructor.
  - reflexivity.
  - reflexivity.
Defined.

(** ** The retry loop of careerviet_enhanced.py *)

Section RetryExtras.

Import CareerViet.

Variable K : Type.
Variable attempt : nat -> K -> Outcome string.

Lemma retry_loop_first_success (total : nat) (before : list K)
      (api_key : K) (after : list K) (i : nat) (r : string) :
  (i + length before + length after = total)%nat ->
  (forall j k, before !! j = Some k -> exists e, attempt (i + j) k = Raise e) ->
  attempt (i + length before) api_key = Return r ->
  retry_loop attempt total i (before ++ api_key :: after) = Return (true, r).
Proof.
  revert i. induction before as [|b before IH]; intros i Htotal Hfail Hok.
  - cbn [app retry_loop]. cbn [length] in Hok. rewrite Nat.add_0_r in Hok.
    now rewrite Hok.
  - cbn [app retry_loop].
    destruct (Hfail 0%nat b eq_refl) as [e He].
    rewrite Nat.add_0_r in He. rewrite He.
    cbn [length] in Htotal, Hok.
    destruct (Nat.eqb_spec i total) as [Heq|_]; [lia|].
    apply IH.
    + lia.
    + intros j k Hj. replace (S i + j)%nat with (i + S j)%nat by lia.
      now apply (Hfail (S j)).
    + now replace (S i + length before)%nat
        with (i + S (length before))%nat by lia.
Qed.

Lemma retry_loop_all_fail (total : nat) (before : list K)
      (api_key : K) (i : nat) (e : string) :
  (i + length before = total)%nat ->
  (forall j k, before !! j = Some k -> exists e', attempt (i + j) k = Raise e') ->
  attempt total api_key = Raise e ->
  retry_loop attempt total i (before ++ [api_key]) = Raise e.
Proof.
  revert i. induction before as [|b before IH]; intros i Htotal Hfail Hlast.
  - cbn [app retry_loop]. cbn [length] in Htotal.
    replace i with total by lia. rewrite Hlast.
    now rewrite Nat.eqb_refl.
  - cbn [app retry_loop].
    destruct (Hfail 0%nat b eq_refl) as [e' He'].
    rewrite Nat.add_0_r in He'. rewrite He'.
    cbn [length] in Htotal.
    destruct (Nat.eqb_spec i total) as [Heq|_]; [lia|].
    apply IH; [lia| |exact Hlast].
    intros j k Hj. replace (S i + j)%nat with (i + S j)%nat by lia.
    now apply (Hfail (S j)).
Qed.

Lemma retry_loop_false (total : nat) (remaining : list K) (i : nat)
      (m : string) :
  (i + length remaining = S total)%nat ->
  retry_loop attempt total i remaining = Return (false, m) ->
  remaining = [].
Proof.
  revert i. induction remaining as [|k rest IH]; intros i Htotal H;
    [reflexivity|].
  exfalso. cbn [retry_loop] in H. cbn [length] in Htotal.
  destruct (attempt i k); [discriminate H|].
  destruct (Nat.eqb_spec i total) as [Heq|Hne]; [discriminate H|].
  destruct rest as [|k' rest'].
  - cbn [length] in Htotal. lia.
  - specialize (IH (S i)). cbn [length] in IH, Htotal.
    discriminate IH; [lia | exact H].
Qed.

(** X28. [run_with_retry] stops at the first key whose attempt returns:
    when the attempts with the keys before it all raised, the outcome is
    success with that attempt's result, whatever the later keys would have
    done; the keys are numbered from 1. *)
Theorem retry_returns_first_success
        (before : list K) (api_key : K) (after : list K)
        (r : string) :
  (forall j k, before !! j = Some k -> exists e, attempt (S j) k = Raise e) ->
  attempt (S (length before)) api_key = Return r ->
  run_with_retry attempt (before ++ api_key :: after) = Return (true, r).
Proof.
  intros Hfail Hok. unfold run_with_retry.
  apply retry_loop_first_success.
  - rewrite length_app. cbn [length]. lia.
  - exact Hfail.
  - exact Hok.
Qed.

(** X29. When every attempt raises, [run_with_retry] raises too, with the
    exception of the last key: the errors of the earlier keys are dropped.
    The pair (False, All API keys failed) after the loop is what the caller
    gets for an empty list of keys and for no other list. *)
Theorem retry_raises_the_last_error
        (before : list K) (api_key : K) (e : string) :
  (forall j k, before !! j = Some k -> exists e', attempt (S j) k = Raise e') ->
  attempt (S (length before)) api_key = Raise e ->
  run_with_retry attempt (before ++ [api_key]) = Raise e
  /\ run_with_retry attempt [] = Return (false, "All API keys failed")
  /\ forall api_keys m,
       run_with_retry attempt api_keys = Return (false, m) -> api_keys = [].
Proof.
  intros Hfail Hlast. split; [|split].
  - unfold run_with_retry. rewrite length_app. cbn [length].
    apply retry_loop_all_fail.
    + lia.
    + exact Hfail.
    + now replace (length before + 1)%nat with (S (length before)) by lia.
  - reflexivity.
  - intros api_keys m H. unfold run_with_retry in H.
    now apply retry_loop_false in H.
Qed.

End RetryExtras.

Lemma retry_returns_first_success_witness :
  CareerViet.run_with_retry ExplorerExamples.second_key_works
                            ExplorerExamples.keys
  = Return (true, "applied").
Proof.
  apply (retry_returns_first_success
           string ExplorerExamples.second_key_works ["key-a"] "key-b" ["key-c"]).
  - intros [|j] k Hk; [|discriminate Hk].
    inversion Hk; subst. eexists. reflexivity.
  - reflexivity.
Defined.

Lemma retry_raises_the_last_error_witness :
  CareerViet.run_with_retry ExplorerExamples.no_key_works
                            ExplorerExamples.keys
  = Raise "quota exceeded for key #3".
Proof.
  refine (proj1 (retry_raises_the_last_error
                   string ExplorerExamples.no_key_works ["key-a"; "key-b"] "key-c"
                   "quota exceeded for key #3" _ _)).
  - intros j k _. eexists. reflexivity.
  - reflexivity.
Defined.

(** ** Loading the keys *)

Section KeyExtras.

Import CareerViet.

Lemma fold_left_invariant {A B : Type} (P : A -> Prop) (f : A -> B -> A)
      (l : list B) (init : A) :
  (forall acc x, P acc -> P (f acc x)) -> P init -> P (fold_left f l init).
Proof.
  intros Hstep. revert init.
  induction l as [|x l IH]; intros init Hinit; [exact Hinit|].
  cbn [fold_left]. apply IH, Hstep, Hinit.
Qed.

Lemma truthy_nonempty (key : Text.t) : Text.truthy key = true -> key <> [].
Proof. destruct key; [discriminate | discriminate]. Qed.

Lemma nonempty_snoc (api_keys : list Text.t) (key : Text.t) :
  Forall (fun key => key <> []) api_keys ->
  Text.truthy key = true ->
  Forall (fun key => key <> []) (api_keys ++ [key]).
Proof.
  intros Hall Hkey. apply Forall_app. split; [exact Hall|].
  constructor; [now apply truthy_nonempty | constructor].
Qed.

Lemma keys_of_variable_nonempty (api_keys : list Text.t) (text : Text.t) :
  Forall (fun key => key <> []) api_keys ->
  Forall (fun key => key <> []) (keys_of_variable api_keys text).
Proof.
  intros Hall. unfold keys_of_variable.
  apply fold_left_invariant; [|exact Hall].
  intros acc key Hacc. cbv zeta.
  destruct (Text.truthy (Text.strip key)) eqn:Ht; [|exact Hacc].
  destruct (negb _); [|exact Hacc].
  now apply nonempty_snoc.
Qed.

Lemma keys_of_file_nonempty (api_keys : list Text.t) (text : Text.t) :
  Forall (fun key => key <> []) api_keys ->
  Forall (fun key => key <> []) (keys_of_file api_keys text).
Proof.
  intros Hall. unfold keys_of_file.
  apply fold_left_invariant; [|exact Hall].
  intros acc line Hacc. cbv zeta.
  destruct (Text.truthy (Text.strip line) && _); [|exact Hacc].
  destruct (Text.contains_char _ _); [|exact Hacc].
  destruct (Text.split_once _ _) as [|before [|value pieces]];
    try exact Hacc.
  destruct (Text.truthy (Text.strip value)) eqn:Ht; [|exact Hacc].
  destruct (negb (Text.mem _ placeholders)); [|exact Hacc].
  cbn [andb]. destruct (negb _); [|exact Hacc].
  now apply nonempty_snoc.
Qed.

Lemma keys_of_numbered_variables_nonempty (host : Host)
      (api_keys : list Text.t) :
  Forall (fun key => key <> []) api_keys ->
  Forall (fun key => key <> []) (keys_of_numbered_variables host api_keys).
Proof.
  intros Hall. unfold keys_of_numbered_variables.
  apply fold_left_invariant; [|exact Hall].
  intros acc i Hacc.
  destruct (getenv host _) as [env_key|]; [|exact Hacc].
  destruct (Text.truthy env_key) eqn:Ht; [|exact Hacc].
  destruct (negb _); [|exact Hacc].
  now apply nonempty_snoc.
Qed.

(** X30. [load_api_keys] never returns an empty list (it raises
    ValueError instead) and never returns an empty key. So, called on the
    keys it loaded, as [main] does, [run_with_retry] either succeeds or
    raises: the pair (False, All API keys failed) after its loop cannot
    come out. *)
Theorem loaded_keys_are_never_empty
        (host : Host) (api_keys : list Text.t) :
  load_api_keys host = Return api_keys ->
  (0 < length api_keys)%nat
  /\ Forall (fun key => key <> []) api_keys
  /\ forall (attempt : nat -> Text.t -> Outcome string),
       (exists r, run_with_retry attempt api_keys = Return (true, r))
       \/ (exists e, run_with_retry attempt api_keys = Raise e).
Proof.
  unfold load_api_keys. intros H.
  set (from_variable := match getenv host "API_KEYS" with
                        | Some _ => _ | None => _ end) in H.
  assert (Forall (fun key : Text.t => key <> []) from_variable) as Hvar.
  { subst from_variable. destruct (getenv host "API_KEYS") as [text|];
      [|constructor].
    destruct (Text.truthy text); [|constructor].
    apply keys_of_variable_nonempty. constructor. }
  destruct (keys_file host) as [[text|e]|]; [| discriminate H |].
  - set (from_file := keys_of_file from_variable text) in H.
    assert (Forall (fun key : Text.t => key <> []) from_file) as Hfile
        by now apply keys_of_file_nonempty.
    pose proof (keys_of_numbered_variables_nonempty host _ Hfile) as Hnum.
    set (numbered := keys_of_numbered_variables host from_file) in *.
    assert (Forall (fun key : Text.t => key <> [])
                   match getenv host "GOOGLE_API_KEY" with
                   | Some single_key =>
                       if Text.truthy single_key
                          && negb (Text.mem single_key numbered)
                       then single_key :: numbered else numbered
                   | None => numbered
                   end) as Hall.
    { destruct (getenv host "GOOGLE_API_KEY") as [k|]; [|exact Hnum].
      destruct (Text.truthy k) eqn:Ht; [|exact Hnum].
      destruct (negb _); [|exact Hnum].
      constructor; [now apply truthy_nonempty | exact Hnum]. }
    destruct (match getenv host "GOOGLE_API_KEY" with
              | Some _ => _ | None => _ end) as [|k ks];
      [discriminate H|].
    inversion H; subst api_keys. clear H.
    split; [cbn [length]; lia|]. split; [exact Hall|].
    intros attempt.
    destruct (run_with_retry attempt (k :: ks)) as [[[|] r]|e] eqn:Hrun;
      [left; now exists r | | right; now exists e].
    unfold run_with_retry in Hrun.
    apply retry_loop_false in Hrun; [discriminate Hrun | lia].
  - pose proof (keys_of_numbered_variables_nonempty host _ Hvar) as Hnum.
    set (numbered := keys_of_numbered_variables host from_variable) in *.
    assert (Forall (fun key : Text.t => key <> [])
                   match getenv host "GOOGLE_API_KEY" with
                   | Some single_key =>
                       if Text.truthy single_key
                          && negb (Text.mem single_key numbered)
                       then single_key :: numbered else numbered
                   | None => numbered
                   end) as Hall.
    { destruct (getenv host "GOOGLE_API_KEY") as [k|]; [|exact Hnum].
      destruct (Text.truthy k) eqn:Ht; [|exact Hnum].
      destruct (negb _); [|exact Hnum].
      constructor; [now apply truthy_nonempty | exact Hnum]. }
    destruct (match getenv host "GOOGLE_API_KEY" with
              | Some _ => _ | None => _ end) as [|k ks];
      [discriminate H|].
    inversion H; subst api_keys. clear H.
    split; [cbn [length]; lia|]. split; [exact Hall|].
    intros attempt.
    destruct (run_with_retry attempt (k :: ks)) as [[[|] r]|e] eqn:Hrun;
      [left; now exists r | | right; now exists e].
    unfold run_with_retry in Hrun.
    apply retry_loop_false in Hrun; [discriminate Hrun | lia].
Qed.

End KeyExtras.

Example load_api_keys_on_a_host :
  CareerViet.load_api_keys ExplorerExamples.host_with_keys
  = Return [Text.of_ascii "key-one"; Text.of_ascii "key-two";
            Text.of_ascii "key-three"]
  /\ CareerViet.load_api_keys ExplorerExamples.host_without_keys
     = Raise CareerViet.no_keys_message.
Proof. split; vm_compute; reflexivity. Qed.

Lemma loaded_keys_are_never_empty_witness :
  (0 < length [Text.of_ascii "key-one"; Text.of_ascii "key-two";
               Text.of_ascii "key-three"])%nat.
Proof.
  refine (proj1 (loaded_keys_are_never_empty
                   ExplorerExamples.host_with_keys _ _)).
  vm_compute; reflexivity.
Defined.
